(** * chatfactory: the arXiv chat bot ([chatfactory/bot/chat_with_arxiv.py])

    A shallow embedding of [ArxivChatBot] and the properties its
    specification states about it.

    - Python text is a [string] of UTF-8 bytes; the templates are kept
      byte for byte.
    - Python values that travel untyped through the bot (the search
      tool's result, decoded JSON, configuration entries) are [value]s.
    - An exception is an [exn]; pure code that may raise lives in
      [result], code that talks to the model backend, the search tool,
      the registries, the logger or [self] is a [prog] tree, which
      [run] interprets against a [collaborators] record.
    - [json.loads] and the [repr] of containers belong to Python's
      library, not to this repository: they are parameters of the
      development, and [Sample] supplies concrete ones to compute with. *)

From Stdlib Require Import Ascii String DecimalString ZArith Lia.
From stdpp Require Import base option strings list gmap.

Set Warnings "-register-all".

#[local] Open Scope Z_scope.
#[local] Open Scope string_scope.
#[local] Open Scope list_scope.

(** ** Python values and exceptions *)

(** The part of Python's value universe the bot can meet: [None], [bool],
    [int], [str], [list] and [dict] with [str] keys (everything
    [json.loads] can produce, floats apart).  A [dict] keeps its
    insertion order, so it is an association list. *)
Inductive value : Type :=
| VNone
| VBool (b : bool)
| VInt (z : Z)
| VStr (s : string)
| VList (l : list value)
| VDict (kvs : list (string * value)).

Inductive exn : Type :=
| KeyError (key : value)
| TypeError
| AttributeError (name : string)
| JSONDecodeError
| Raised (what : string).

Inductive result (A : Type) : Type :=
| Ok (a : A)
| Err (e : exn).
Arguments Ok {A} a.
Arguments Err {A} e.

Definition rbind {A B : Type} (m : result A) (k : A -> result B) : result B :=
  match m with
  | Ok a => k a
  | Err e => Err e
  end.

Declare Scope result_scope.
Delimit Scope result_scope with result.
Notation "x <- m ;; k" := (rbind m (fun x => k))
  (at level 100, m at next level, right associativity) : result_scope.

(** ** Text helpers *)

Definition nl : string := String "010"%char "".
Definition dquote : string := String "034"%char "".

(** Concatenation of a list of texts. *)
Definition cat (l : list string) : string := foldr String.append "" l.

(** Text made of lines, each closed by a newline. *)
Definition unlines (l : list string) : string := cat (map (fun s => s +:+ nl) l).

(** [sep.join(l)] on a list of [str]. *)
Fixpoint join (sep : string) (l : list string) : string :=
  match l with
  | [] => ""
  | [s] => s
  | s :: rest => s +:+ sep +:+ join sep rest
  end.

(** A byte of the form 10xxxxxx continues a UTF-8 code point. *)
Definition is_continuation (c : ascii) : bool :=
  let n := nat_of_ascii c in (Nat.leb 128 n && Nat.ltb n 192)%bool.

(** Leading continuation bytes of [s], then its code points. *)
Fixpoint split_utf8 (s : string) : string * list string :=
  match s with
  | EmptyString => ("", [])
  | String c s' =>
      let '(k, l) := split_utf8 s' in
      if is_continuation c then (String c k, l) else ("", String c k :: l)
  end.

(** The characters of a [str], as Python iterates over them. *)
Definition str_chars (s : string) : list string := snd (split_utf8 s).

(** [str(z)] for an [int]. *)
Definition str_of_int (z : Z) : string := NilEmpty.string_of_int (Z.to_int z).

(** ** Built-in operations on values *)

(** Truth value of an object, as [if not papers] tests it. *)
Definition truthy (v : value) : bool :=
  match v with
  | VNone => false
  | VBool b => b
  | VInt z => negb (Z.eqb z 0)
  | VStr s => negb (String.eqb s "")
  | VList l => negb (Nat.eqb (length l) 0)
  | VDict kvs => negb (Nat.eqb (length kvs) 0)
  end.

Fixpoint dict_get (kvs : list (string * value)) (key : string) : option value :=
  match kvs with
  | [] => None
  | (k, v) :: rest => if String.eqb k key then Some v else dict_get rest key
  end.

(** [obj[key]] with a [str] key: only a [dict] can answer, and raises
    [KeyError] when the key is missing. *)
Definition getitem (obj : value) (key : string) : result value :=
  match obj with
  | VDict kvs =>
      match dict_get kvs key with
      | Some v => Ok v
      | None => Err (KeyError (VStr key))
      end
  | _ => Err TypeError
  end.

(** The items a [for] loop (or [enumerate], or [join]) draws from an object. *)
Definition py_iter (v : value) : result (list value) :=
  match v with
  | VList l => Ok l
  | VStr s => Ok (map VStr (str_chars s))
  | VDict kvs => Ok (map (fun kv => VStr (fst kv)) kvs)
  | _ => Err TypeError
  end.

Fixpoint expect_strs (l : list value) : result (list string) :=
  match l with
  | [] => Ok []
  | VStr s :: rest => (ss <- expect_strs rest ;; Ok (s :: ss))%result
  | _ :: _ => Err TypeError
  end.

(** [sep.join(v)]: every item of [v] must be a [str]. *)
Definition str_join (sep : string) (v : value) : result string :=
  (items <- py_iter v ;;
   ss <- expect_strs items ;;
   Ok (join sep ss))%result.

(** ** Templates and [str.format] *)

(** A format string, cut at its replacement fields. *)
Inductive piece : Type :=
| Lit (text : string)
| Field (name : string).

Section Bot.

(** [repr] of a [list] or [dict], from Python's runtime. *)
Variable py_repr : value -> string.

(** [json.loads] on a [str], from Python's [json] module. *)
Variable json_loads : string -> result value.

(** What a bare replacement field inserts for [v]: its [str]. *)
Definition py_format (v : value) : string :=
  match v with
  | VStr s => s
  | VInt z => str_of_int z
  | VBool true => "True"
  | VBool false => "False"
  | VNone => "None"
  | VList _ | VDict _ => py_repr v
  end.

(** [template.format(name=value, ...)]: a field without a value raises
    [KeyError]; values that no field names are ignored. *)
Fixpoint format (template : list piece) (kwargs : list (string * value)) : result string :=
  match template with
  | [] => Ok ""
  | Lit text :: rest => (out <- format rest kwargs ;; Ok (text +:+ out))%result
  | Field name :: rest =>
      match dict_get kwargs name with
      | Some v => (out <- format rest kwargs ;; Ok (py_format v +:+ out))%result
      | None => Err (KeyError (VStr name))
      end
  end.

Definition ARXIV_SYSTEM_PROMPT : string := "你擅长给用户推荐学术论文。".

Definition ARXIV_SEARCH_PROMPT : string :=
  unlines
    [ "任务";
      "根据用户问题提取关键信息，用于论文搜索。";
      "";
      "输入";
      "用户问题或陈述（字符串）。";
      "";
      "输出";
      "JSON格式，包含以下字段：";
      "{";
      "    " +:+ dquote +:+ "research_field" +:+ dquote +:+ ": ["
        +:+ dquote +:+ "<topic1>" +:+ dquote +:+ ", "
        +:+ dquote +:+ "<topic2>" +:+ dquote +:+ "],";
      "    " +:+ dquote +:+ "authors" +:+ dquote +:+ ": ["
        +:+ dquote +:+ "<author1>" +:+ dquote +:+ ", "
        +:+ dquote +:+ "<author2>" +:+ dquote +:+ "],";
      "    " +:+ dquote +:+ "search_order" +:+ dquote +:+ ": "
        +:+ dquote +:+ "<sort type>" +:+ dquote;
      "}";
      "";
      "字段说明";
      "research_field：英文研究主题（必须为英文），可以为空。";
      "authors：英文论文作者（必须为英文），可以为空。";
      "search_order：检索方法，值为 " +:+ dquote +:+ "Latest" +:+ dquote
        +:+ "（按最新排序）或 " +:+ dquote +:+ "Relevance" +:+ dquote
        +:+ "（按相关度排序）。" ].

Definition ARXIV_CHAT_TEMPLATE : list piece :=
  [ Lit ("请根据arXiv论文候选集来回答问题，不要编造，若arXiv论文候选集为空，提醒我检查arXiv服务是否可用。"
         +:+ nl +:+ nl +:+ "arXiv论文候选集：" +:+ nl +:+ nl);
    Field "content";
    Lit (nl +:+ nl +:+ "问题：" +:+ nl +:+ nl);
    Field "message";
    Lit nl ].

Definition PAPER_CARD_TEMPLATE : list piece :=
  [ Lit (nl +:+ "### [");
    Field "index";
    Lit ". ";
    Field "title";
    Lit "](";
    Field "pdf_url";
    Lit (")" +:+ nl +:+ nl +:+ "**Authors:** ");
    Field "authors";
    Lit (nl +:+ nl +:+ "**Abstract:** ");
    Field "abstract";
    Lit (nl +:+ nl) ].

Definition PAPER_CARD_MARKDOWN : list piece :=
  [ Lit (nl +:+ "<div style=" +:+ dquote +:+ "flex: 1; overflow-y: auto;" +:+ dquote +:+ ">" +:+ nl);
    Field "content";
    Lit (nl +:+ "</div>" +:+ nl) ].

(** The three one-line formats of [_prepare_message_for_llm]. *)
Definition TITLE_LINE : list piece := [ Lit "题目："; Field "title"; Lit nl ].
Definition AUTHORS_LINE : list piece := [ Lit "作者："; Field "authors"; Lit nl ].
Definition ABSTRACT_LINE : list piece := [ Lit "摘要："; Field "abstract"; Lit (nl +:+ nl) ].

(** ** The paper formatter *)

(** [json.loads(papers)]: anything but a [str] is refused. *)
Definition loads (papers : value) : result value :=
  match papers with
  | VStr s => json_loads s
  | _ => Err TypeError
  end.

(** One turn of the loop of [_generate_paper_cards]: the keyword
    arguments are evaluated left to right, then the card is formatted. *)
Definition paper_card (index : nat) (paper : value) : result string :=
  (title <- getitem paper "title" ;;
   authors_field <- getitem paper "authors" ;;
   authors <- str_join ", " authors_field ;;
   abstract <- getitem paper "summary" ;;
   pdf_url <- getitem paper "pdf_url" ;;
   format PAPER_CARD_TEMPLATE
     [ ("index", VInt (Z.of_nat index + 1));
       ("title", title);
       ("authors", VStr authors);
       ("abstract", abstract);
       ("pdf_url", pdf_url) ])%result.

(** [for index, paper in enumerate(papers): paper_cards += ...] *)
Fixpoint cards_loop (index : nat) (papers : list value) (paper_cards : string) : result string :=
  match papers with
  | [] => Ok paper_cards
  | paper :: rest =>
      (card <- paper_card index paper ;;
       cards_loop (S index) rest (paper_cards +:+ card))%result
  end.

Definition _generate_paper_cards (papers : value) : result string :=
  if negb (truthy papers) then Ok ""
  else
    (papers <- loads papers ;;
     items <- py_iter papers ;;
     paper_cards <- cards_loop 0 items "" ;;
     format PAPER_CARD_MARKDOWN [ ("content", VStr paper_cards) ])%result.

(** One turn of the loop of [_prepare_message_for_llm]: three
    [content += ...] statements. *)
Definition grounding_lines (content : string) (paper : value) : result string :=
  (title <- getitem paper "title" ;;
   line1 <- format TITLE_LINE [ ("title", title) ] ;;
   let content := content +:+ line1 in
   authors_field <- getitem paper "authors" ;;
   authors <- str_join ", " authors_field ;;
   line2 <- format AUTHORS_LINE [ ("authors", VStr authors) ] ;;
   let content := content +:+ line2 in
   abstract <- getitem paper "summary" ;;
   line3 <- format ABSTRACT_LINE [ ("abstract", abstract) ] ;;
   Ok (content +:+ line3))%result.

Fixpoint grounding_loop (papers : list value) (content : string) : result string :=
  match papers with
  | [] => Ok content
  | paper :: rest =>
      (content <- grounding_lines content paper ;;
       grounding_loop rest content)%result
  end.

Definition _prepare_message_for_llm (message : string) (papers : value) : result string :=
  if negb (truthy papers) then Ok message
  else
    (papers <- loads papers ;;
     items <- py_iter papers ;;
     content <- grounding_loop items "" ;;
     format ARXIV_CHAT_TEMPLATE [ ("content", VStr content); ("message", VStr message) ])%result.

(** ** Collaborators and effects *)

(** A chat message, [{"role": ..., "content": ...}]. *)
Inductive role : Type := system | user | assistant.

Record msg : Type := Msg { msg_role : role; msg_content : string }.

(** Classes held by the two registries and the objects they build. *)
Context {llm_cls tool_cls llm_handle tool_handle : Type}.

(** [LLM_REGISTRY] and [TOOL_REGISTRY], filled in by the surrounding
    application ([chatfactory.llm.utils], [chatfactory.tool.utils]). *)
Variable LLM_REGISTRY : gmap string llm_cls.
Variable TOOL_REGISTRY : gmap string tool_cls.

(** The attributes of an [ArxivChatBot]: [self.llm] and [self.tool], each
    missing until it is first assigned. *)
Record bot : Type := Bot { llm : option llm_handle; tool : option tool_handle }.

(** What a method does besides computing: it logs, reads or assigns an
    attribute of [self], builds a collaborator or calls one.  Every
    node but [Ret] and [Raise] carries the rest of the method. *)
Inductive prog (A : Type) : Type :=
| Ret (a : A)
| Raise (e : exn)
| LogInfo (text : string) (k : prog A)
| GetLLM (k : llm_handle -> prog A)
| SetLLM (h : llm_handle) (k : prog A)
| GetTool (k : tool_handle -> prog A)
| SetTool (t : tool_handle) (k : prog A)
| NewLLM (cls : llm_cls) (model model_config : value) (k : llm_handle -> prog A)
| NewTool (cls : tool_cls) (k : tool_handle -> prog A)
| LLMModel (h : llm_handle) (k : value -> prog A)
| Invoke (h : llm_handle) (messages : list msg) (generation_config : value)
    (k : string -> prog A)
| InvokeStream (h : llm_handle) (messages : list msg) (generation_config : value)
    (k : string -> prog A)
| ToolCall (t : tool_handle) (text : string) (max_results : Z) (k : value -> prog A).
Arguments Ret {A} a.
Arguments Raise {A} e.
Arguments LogInfo {A} text k.
Arguments GetLLM {A} k.
Arguments SetLLM {A} h k.
Arguments GetTool {A} k.
Arguments SetTool {A} t k.
Arguments NewLLM {A} cls model model_config k.
Arguments NewTool {A} cls k.
Arguments LLMModel {A} h k.
Arguments Invoke {A} h messages generation_config k.
Arguments InvokeStream {A} h messages generation_config k.
Arguments ToolCall {A} t text max_results k.

Fixpoint pbind {A B : Type} (p : prog A) (f : A -> prog B) : prog B :=
  match p with
  | Ret a => f a
  | Raise e => Raise e
  | LogInfo text k => LogInfo text (pbind k f)
  | GetLLM k => GetLLM (fun h => pbind (k h) f)
  | SetLLM h k => SetLLM h (pbind k f)
  | GetTool k => GetTool (fun t => pbind (k t) f)
  | SetTool t k => SetTool t (pbind k f)
  | NewLLM cls model model_config k => NewLLM cls model model_config (fun h => pbind (k h) f)
  | NewTool cls k => NewTool cls (fun t => pbind (k t) f)
  | LLMModel h k => LLMModel h (fun v => pbind (k v) f)
  | Invoke h messages cfg k => Invoke h messages cfg (fun r => pbind (k r) f)
  | InvokeStream h messages cfg k => InvokeStream h messages cfg (fun r => pbind (k r) f)
  | ToolCall t text max_results k => ToolCall t text max_results (fun v => pbind (k v) f)
  end.

Declare Scope prog_scope.
Delimit Scope prog_scope with prog.
Notation "x <- p ;; q" := (pbind p (fun x => q))
  (at level 100, p at next level, right associativity) : prog_scope.
Notation "p ;; q" := (pbind p (fun _ => q))
  (at level 100, right associativity) : prog_scope.

(** Pure code inside a method: its exception, if any, is the method's. *)
Definition lift {A : Type} (r : result A) : prog A :=
  match r with
  | Ok a => Ret a
  | Err e => Raise e
  end.

Definition log_info (text : string) : prog unit := LogInfo text (Ret tt).
Definition self_llm : prog llm_handle := GetLLM Ret.
Definition self_tool : prog tool_handle := GetTool Ret.
Definition set_self_llm (h : llm_handle) : prog unit := SetLLM h (Ret tt).
Definition set_self_tool (t : tool_handle) : prog unit := SetTool t (Ret tt).

(** What the outside world sees of a run, oldest first. *)
Inductive event : Type :=
| EvLog (text : string)
| EvNewLLM (cls : llm_cls) (model model_config : value)
| EvNewTool (cls : tool_cls)
| EvModel (h : llm_handle)
| EvInvoke (h : llm_handle) (messages : list msg) (generation_config : value)
| EvInvokeStream (h : llm_handle) (messages : list msg) (generation_config : value)
| EvCall (t : tool_handle) (text : string) (max_results : Z).

(** The collaborators' behaviour.  [W] is whatever state they keep to
    themselves; each operation may raise and may change that state. *)
Record collaborators (W : Type) : Type := Collaborators {
  llm_init : llm_cls -> value -> value -> W -> result llm_handle * W;
  llm_model : llm_handle -> W -> result value * W;
  llm_invoke : llm_handle -> list msg -> value -> W -> result string * W;
  llm_invoke_stream : llm_handle -> list msg -> value -> W -> result string * W;
  tool_init : tool_cls -> W -> result tool_handle * W;
  tool_call : tool_handle -> string -> Z -> W -> result value * W
}.
Arguments llm_init {W} c.
Arguments llm_model {W} c.
Arguments llm_invoke {W} c.
Arguments llm_invoke_stream {W} c.
Arguments tool_init {W} c.
Arguments tool_call {W} c.

(** How a run ends: the value returned or the exception raised, the
    bot's attributes, the collaborators' state and the events so far. *)
Record outcome (W A : Type) : Type := Outcome {
  returned : result A;
  self_after : bot;
  world_after : W;
  trace : list event
}.
Arguments Outcome {W A} returned self_after world_after trace.
Arguments returned {W A} o.
Arguments self_after {W A} o.
Arguments world_after {W A} o.
Arguments trace {W A} o.

Definition after {W A : Type} (ev : event) (o : outcome W A) : outcome W A :=
  Outcome (returned o) (self_after o) (world_after o) (ev :: trace o).

Section Run.
Context {W : Type} (C : collaborators W).

(** One collaborator call inside a run: on success the method goes on
    with the answer, on failure the exception ends it. *)
Definition call_out {A X : Type} (ev : event) (answer : result X * W) (self : bot)
    (go_on : X -> bot -> W -> outcome W A) : outcome W A :=
  match answer with
  | (Ok x, w') => after ev (go_on x self w')
  | (Err e, w') => Outcome (Err e) self w' [ev]
  end.

Fixpoint run {A : Type} (p : prog A) (self : bot) (w : W) : outcome W A :=
  match p with
  | Ret a => Outcome (Ok a) self w []
  | Raise e => Outcome (Err e) self w []
  | LogInfo text k => after (EvLog text) (run k self w)
  | GetLLM k =>
      match llm self with
      | Some h => run (k h) self w
      | None => Outcome (Err (AttributeError "llm")) self w []
      end
  | SetLLM h k => run k (Bot (Some h) (tool self)) w
  | GetTool k =>
      match tool self with
      | Some t => run (k t) self w
      | None => Outcome (Err (AttributeError "tool")) self w []
      end
  | SetTool t k => run k (Bot (llm self) (Some t)) w
  | NewLLM cls model model_config k =>
      call_out (EvNewLLM cls model model_config) (llm_init C cls model model_config w) self
        (fun h => run (k h))
  | NewTool cls k =>
      call_out (EvNewTool cls) (tool_init C cls w) self (fun t => run (k t))
  | LLMModel h k =>
      call_out (EvModel h) (llm_model C h w) self (fun v => run (k v))
  | Invoke h messages cfg k =>
      call_out (EvInvoke h messages cfg) (llm_invoke C h messages cfg w) self
        (fun r => run (k r))
  | InvokeStream h messages cfg k =>
      call_out (EvInvokeStream h messages cfg) (llm_invoke_stream C h messages cfg w) self
        (fun r => run (k r))
  | ToolCall t text max_results k =>
      call_out (EvCall t text max_results) (tool_call C t text max_results w) self
        (fun v => run (k v))
  end.

End Run.

(** ** The bot's methods *)

(** [registry[key]]: a [list] or [dict] cannot be hashed; any other key
    that is not registered raises [KeyError]. *)
Definition registry_lookup {cls : Type} (registry : gmap string cls) (key : value) : result cls :=
  match key with
  | VStr name =>
      match registry !! name with
      | Some c => Ok c
      | None => Err (KeyError key)
      end
  | VList _ | VDict _ => Err TypeError
  | _ => Err (KeyError key)
  end.

(** [llm_config.get(key, None)] *)
Definition config_get (llm_config : gmap string value) (key : string) : value :=
  default VNone (llm_config !! key).

Definition parse_llm_config (llm_config : option (gmap string value)) : value * value * value :=
  let llm_config := match llm_config with None => ∅ | Some c => c end in
  let llm_engine := config_get llm_config "engine" in
  let model := config_get llm_config "model" in
  let model_config := config_get llm_config "model_config" in
  (llm_engine, model, model_config).

(** [if llm_engine is None: llm_engine = "openai"] *)
Definition resolve_engine (llm_engine : value) : value :=
  match llm_engine with
  | VNone => VStr "openai"
  | _ => llm_engine
  end.

Definition setup_model (llm_engine model model_config : value) : prog unit :=
  (log_info "Setting up LLM..." ;;
   let llm_engine := resolve_engine llm_engine in
   llm_cls <- lift (registry_lookup LLM_REGISTRY llm_engine) ;;
   h <- NewLLM llm_cls model model_config Ret ;;
   set_self_llm h ;;
   log_info ("LLM Engine: " +:+ py_format llm_engine) ;;
   h <- self_llm ;;
   model_id <- LLMModel h Ret ;;
   log_info ("Model ID/Path: " +:+ py_format model_id) ;;
   log_info ("Model Config: " +:+ py_format model_config) ;;
   log_info "LLM has been initialized.")%prog.

Definition __init__ (llm_config : option (gmap string value)) : prog unit :=
  (let '(llm_engine, model, model_config) := parse_llm_config llm_config in
   setup_model llm_engine model model_config ;;
   tool_cls <- lift (registry_lookup TOOL_REGISTRY (VStr "arxiv")) ;;
   t <- NewTool tool_cls Ret ;;
   set_self_tool t)%prog.

(** [if system_prompt:] on an optional [str]. *)
Definition nonempty (system_prompt : option string) : bool :=
  match system_prompt with
  | None => false
  | Some s => negb (String.eqb s "")
  end.

(** The [messages] list [_chat] builds before it calls the model. *)
Definition chat_messages (message : string) (history : list (string * string))
    (system_prompt : option string) : list msg :=
  let messages := [] in
  let messages :=
    if nonempty system_prompt
    then messages ++ [Msg system (default "" system_prompt)]
    else messages in
  let messages :=
    if Nat.ltb 0 (length history)
    then fold_left
           (fun messages turn =>
              let '(query, response) := turn in
              (messages ++ [Msg user query]) ++ [Msg assistant response])
           history messages
    else messages in
  messages ++ [Msg user message].

Definition _chat (message : string) (history : list (string * string))
    (system_prompt : option string) (generation_config : value) (stream : bool) : prog string :=
  (let messages := chat_messages message history system_prompt in
   h <- self_llm ;;
   if stream
   then InvokeStream h messages generation_config Ret
   else Invoke h messages generation_config Ret)%prog.

Definition _search_from_arxiv (message : string) (history : list (string * string))
    (generation_config : value) (max_results : Z) : prog (value * string) :=
  (response <- _chat message history (Some ARXIV_SEARCH_PROMPT) generation_config false ;;
   t <- self_tool ;;
   papers <- ToolCall t response max_results Ret ;;
   Ret (papers, response))%prog.

Definition chat (message : string) (history_chat history_search : list (string * string))
    (generation_config : value) (max_results : Z) (stream : bool)
  : prog (string * string * string) :=
  (found <- _search_from_arxiv message history_search generation_config max_results ;;
   let '(papers, paper_search_query) := found in
   paper_cards <- lift (_generate_paper_cards papers) ;;
   messaeg_for_llm <- lift (_prepare_message_for_llm message papers) ;;
   response <- _chat messaeg_for_llm history_chat (Some ARXIV_SYSTEM_PROMPT)
                 generation_config stream ;;
   Ret (response, paper_cards, paper_search_query))%prog.

End Bot.

Arguments Ret {llm_cls tool_cls llm_handle tool_handle A} a.
Arguments Raise {llm_cls tool_cls llm_handle tool_handle A} e.
Arguments LogInfo {llm_cls tool_cls llm_handle tool_handle A} text k.
Arguments GetLLM {llm_cls tool_cls llm_handle tool_handle A} k.
Arguments SetLLM {llm_cls tool_cls llm_handle tool_handle A} h k.
Arguments GetTool {llm_cls tool_cls llm_handle tool_handle A} k.
Arguments SetTool {llm_cls tool_cls llm_handle tool_handle A} t k.
Arguments NewLLM {llm_cls tool_cls llm_handle tool_handle A} cls model model_config k.
Arguments NewTool {llm_cls tool_cls llm_handle tool_handle A} cls k.
Arguments LLMModel {llm_cls tool_cls llm_handle tool_handle A} h k.
Arguments Invoke {llm_cls tool_cls llm_handle tool_handle A} h messages generation_config k.
Arguments InvokeStream {llm_cls tool_cls llm_handle tool_handle A} h messages generation_config k.
Arguments ToolCall {llm_cls tool_cls llm_handle tool_handle A} t text max_results k.
Arguments Outcome {llm_cls tool_cls llm_handle tool_handle W A} returned self_after world_after trace.
Arguments Collaborators {llm_cls tool_cls llm_handle tool_handle W}.
Arguments returned {llm_cls tool_cls llm_handle tool_handle W A} o.
Arguments self_after {llm_cls tool_cls llm_handle tool_handle W A} o.
Arguments world_after {llm_cls tool_cls llm_handle tool_handle W A} o.
Arguments trace {llm_cls tool_cls llm_handle tool_handle W A} o.
Arguments llm_init {llm_cls tool_cls llm_handle tool_handle W} c.
Arguments llm_model {llm_cls tool_cls llm_handle tool_handle W} c.
Arguments llm_invoke {llm_cls tool_cls llm_handle tool_handle W} c.
Arguments llm_invoke_stream {llm_cls tool_cls llm_handle tool_handle W} c.
Arguments tool_init {llm_cls tool_cls llm_handle tool_handle W} c.
Arguments tool_call {llm_cls tool_cls llm_handle tool_handle W} c.

(** ** Concrete library functions and collaborators

    Stand-ins to compute with: a decoder and an encoder for the JSON
    the search tool exchanges (integers, ASCII text, the short
    escapes), and an echoing model with a two-paper search tool. *)
Module Sample.

Definition is_ws (c : ascii) : bool :=
  (Ascii.eqb c " " || Ascii.eqb c "010" || Ascii.eqb c "013" || Ascii.eqb c "009")%bool.

Fixpoint skip_ws (s : string) : string :=
  match s with
  | EmptyString => ""
  | String c s' => if is_ws c then skip_ws s' else s
  end.

Fixpoint strip_prefix (p s : string) : option string :=
  match p, s with
  | EmptyString, _ => Some s
  | String a p', String b s' => if Ascii.eqb a b then strip_prefix p' s' else None
  | String _ _, EmptyString => None
  end.

(** The character a backslash escape stands for. *)
Definition unescape (c : ascii) : option ascii :=
  if Ascii.eqb c "034" then Some "034"%char
  else if Ascii.eqb c "\" then Some "\"%char
  else if Ascii.eqb c "/" then Some "/"%char
  else if Ascii.eqb c "n" then Some "010"%char
  else if Ascii.eqb c "r" then Some "013"%char
  else if Ascii.eqb c "t" then Some "009"%char
  else if Ascii.eqb c "b" then Some "008"%char
  else if Ascii.eqb c "f" then Some "012"%char
  else None.

(** A string literal after its opening quote: the text and what follows
    the closing quote. *)
Fixpoint scan_string (s : string) : option (string * string) :=
  match s with
  | EmptyString => None
  | String c s' =>
      if Ascii.eqb c "034" then Some ("", s')
      else if Ascii.eqb c "\" then
        match s' with
        | String e s'' =>
            match unescape e, scan_string s'' with
            | Some c', Some (text, rest) => Some (String c' text, rest)
            | _, _ => None
            end
        | EmptyString => None
        end
      else
        match scan_string s' with
        | Some (text, rest) => Some (String c text, rest)
        | None => None
        end
  end.

Definition digit (c : ascii) : option Z :=
  let n := nat_of_ascii c in
  if (Nat.leb 48 n && Nat.leb n 57)%bool then Some (Z.of_nat (n - 48)) else None.

Fixpoint scan_digits (acc : Z) (s : string) : Z * string :=
  match s with
  | EmptyString => (acc, "")
  | String c s' =>
      match digit c with
      | Some d => scan_digits (10 * acc + d) s'
      | None => (acc, s)
      end
  end.

Definition scan_int (s : string) : option (Z * string) :=
  match s with
  | String c s' =>
      if Ascii.eqb c "-" then
        match s' with
        | String d _ =>
            match digit d with
            | Some _ => let '(z, rest) := scan_digits 0 s' in Some (- z, rest)
            | None => None
            end
        | EmptyString => None
        end
      else
        match digit c with
        | Some _ => Some (scan_digits 0 s)
        | None => None
        end
  | EmptyString => None
  end.

(** A later binding of a key replaces the earlier one, in place. *)
Fixpoint dict_set (kvs : list (string * value)) (key : string) (v : value)
  : list (string * value) :=
  match kvs with
  | [] => [(key, v)]
  | (k, old) :: rest =>
      if String.eqb k key then (k, v) :: rest else (k, old) :: dict_set rest key v
  end.

Fixpoint parse_value (fuel : nat) (s : string) : option (value * string) :=
  match fuel with
  | O => None
  | S fuel =>
      match skip_ws s with
      | EmptyString => None
      | String c rest =>
          if Ascii.eqb c "[" then
            match skip_ws rest with
            | String "]" rest' => Some (VList [], rest')
            | _ =>
                match parse_items fuel rest with
                | Some (items, rest') => Some (VList items, rest')
                | None => None
                end
            end
          else if Ascii.eqb c "{" then
            match skip_ws rest with
            | String "}" rest' => Some (VDict [], rest')
            | _ =>
                match parse_members fuel [] rest with
                | Some (kvs, rest') => Some (VDict kvs, rest')
                | None => None
                end
            end
          else if Ascii.eqb c "034" then
            match scan_string rest with
            | Some (text, rest') => Some (VStr text, rest')
            | None => None
            end
          else
            match strip_prefix "null" (String c rest),
                  strip_prefix "true" (String c rest),
                  strip_prefix "false" (String c rest) with
            | Some rest', _, _ => Some (VNone, rest')
            | _, Some rest', _ => Some (VBool true, rest')
            | _, _, Some rest' => Some (VBool false, rest')
            | None, None, None =>
                match scan_int (String c rest) with
                | Some (z, rest') => Some (VInt z, rest')
                | None => None
                end
            end
      end
  end
with parse_items (fuel : nat) (s : string) : option (list value * string) :=
  match fuel with
  | O => None
  | S fuel =>
      match parse_value fuel s with
      | Some (v, rest) =>
          match skip_ws rest with
          | String "," rest' =>
              match parse_items fuel rest' with
              | Some (items, rest'') => Some (v :: items, rest'')
              | None => None
              end
          | String "]" rest' => Some ([v], rest')
          | _ => None
          end
      | None => None
      end
  end
with parse_members (fuel : nat) (seen : list (string * value)) (s : string)
  : option (list (string * value) * string) :=
  match fuel with
  | O => None
  | S fuel =>
      match skip_ws s with
      | String "034" rest =>
          match scan_string rest with
          | Some (key, rest1) =>
              match skip_ws rest1 with
              | String ":" rest2 =>
                  match parse_value fuel rest2 with
                  | Some (v, rest3) =>
                      let seen := dict_set seen key v in
                      match skip_ws rest3 with
                      | String "," rest4 => parse_members fuel seen rest4
                      | String "}" rest4 => Some (seen, rest4)
                      | _ => None
                      end
                  | None => None
                  end
              | _ => None
              end
          | None => None
          end
      | _ => None
      end
  end.

Definition json_loads (s : string) : result value :=
  match parse_value (S (String.length s)) s with
  | Some (v, rest) =>
      match skip_ws rest with
      | EmptyString => Ok v
      | String _ _ => Err JSONDecodeError
      end
  | None => Err JSONDecodeError
  end.

Fixpoint escape (s : string) : string :=
  match s with
  | EmptyString => ""
  | String c s' =>
      if Ascii.eqb c "034" then String "\" (String "034" (escape s'))
      else if Ascii.eqb c "\" then String "\" (String "\" (escape s'))
      else if Ascii.eqb c "010" then String "\" (String "n" (escape s'))
      else String c (escape s')
  end.

Definition quoted (s : string) : string := dquote +:+ escape s +:+ dquote.

Fixpoint dumps (v : value) : string :=
  match v with
  | VNone => "null"
  | VBool true => "true"
  | VBool false => "false"
  | VInt z => str_of_int z
  | VStr s => quoted s
  | VList l => "[" +:+ join ", " (map dumps l) +:+ "]"
  | VDict kvs =>
      "{" +:+ join ", " (map (fun '(k, v) => quoted k +:+ ": " +:+ dumps v) kvs) +:+ "}"
  end.

(** A [repr] for containers, good for text without quotes or escapes. *)
Fixpoint py_repr (v : value) : string :=
  match v with
  | VNone => "None"
  | VBool true => "True"
  | VBool false => "False"
  | VInt z => str_of_int z
  | VStr s => "'" +:+ s +:+ "'"
  | VList l => "[" +:+ join ", " (map py_repr l) +:+ "]"
  | VDict kvs =>
      "{" +:+ join ", " (map (fun '(k, v) => "'" +:+ k +:+ "': " +:+ py_repr v) kvs) +:+ "}"
  end.

End Sample.

(** ** Paper records *)

(** A paper record as the search tool's contract describes it. *)
Record PaperRecord : Type := {
  title : string;
  authors : list string;
  summary : string;
  pdf_url : string
}.

(** The [dict] a paper record is once decoded. *)
Definition paper_value (p : PaperRecord) : value :=
  VDict [ ("title", VStr (title p));
          ("authors", VList (map VStr (authors p)));
          ("summary", VStr (summary p));
          ("pdf_url", VStr (pdf_url p)) ].

(** An echoing model and a search tool with two papers on its shelf.
    A class is known by its name, a model handle by its class and model,
    the tool handle by its class; the collaborators count the calls
    they have served. *)
Module SampleWorld.

Definition LLM_REGISTRY : gmap string string := {[ "openai" := "OpenAILLM" ]}.
Definition TOOL_REGISTRY : gmap string string := {[ "arxiv" := "ArxivTool" ]}.

Definition records : list PaperRecord :=
  [ {| title := "Graph Attention Networks";
       authors := ["P. Velickovic"; "G. Cucurull"];
       summary := "Attention over graph neighbourhoods.";
       pdf_url := "http://arxiv.org/pdf/1710.10903" |};
    {| title := "Semi-Supervised Classification with GCNs";
       authors := ["T. Kipf"; "M. Welling"];
       summary := "A scalable approach to learning on graphs.";
       pdf_url := "http://arxiv.org/pdf/1609.02907" |} ].

Definition shelf : list value := map paper_value records.

(** The model answers with the content of the last message it is shown. *)
Definition echo (prefix : string) (messages : list msg) : string :=
  prefix +:+ match last messages with
             | Some m => msg_content m
             | None => ""
             end.

(** The tool hands out the first [max_results] papers of its shelf,
    serialized, and [None] when asked for none. *)
Definition search (max_results : Z) : value :=
  if Z.leb max_results 0 then VNone
  else VStr (Sample.dumps (VList (take (Z.to_nat max_results) shelf))).

Definition world : @collaborators string string (string * value) string nat :=
  Collaborators
    (fun cls model _ w => (Ok (cls, model), S w))
    (fun h w => (Ok (snd h), w))
    (fun _ messages _ w => (Ok (echo "intent: " messages), S w))
    (fun _ messages _ w => (Ok (echo "answer: " messages), S w))
    (fun cls w => (Ok cls, S w))
    (fun _ _ max_results w => (Ok (search max_results), S w)).

Definition bot0 : @bot (string * value) string := Bot None None.
Definition bot1 : @bot (string * value) string :=
  Bot (Some ("OpenAILLM", VNone)) (Some "ArxivTool").

(** Inputs to try the bot on. *)
Definition question : string := "recommend papers on graph neural networks".
Definition serialized : string := Sample.dumps (VList shelf).
Definition model : string * value := ("OpenAILLM", VNone).
Definition intent : string := "intent: " +:+ question.

(** A record without [pdf_url]. *)
Definition no_link : value :=
  VDict [ ("title", VStr "Graph Attention Networks");
          ("authors", VList [VStr "P. Velickovic"]);
          ("summary", VStr "Attention over graph neighbourhoods.") ].

(** A record without [summary]. *)
Definition no_summary : value :=
  VDict [ ("title", VStr "Graph Attention Networks");
          ("authors", VList [VStr "P. Velickovic"]);
          ("pdf_url", VStr "http://arxiv.org/pdf/1710.10903") ].

End SampleWorld.

(** ** The specification's vocabulary *)

Fixpoint as_strs (l : list value) : option (list string) :=
  match l with
  | [] => Some []
  | VStr s :: rest =>
      match as_strs rest with
      | Some ss => Some (s :: ss)
      | None => None
      end
  | _ :: _ => None
  end.

(** The typed reading of a decoded value: a [dict] holding the four
    fields with the types of the contract (other keys are ignored). *)
Definition as_paper (v : value) : option PaperRecord :=
  match v with
  | VDict kvs =>
      match dict_get kvs "title", dict_get kvs "authors",
            dict_get kvs "summary", dict_get kvs "pdf_url" with
      | Some (VStr t), Some (VList l), Some (VStr s), Some (VStr u) =>
          match as_strs l with
          | Some names => Some {| title := t; authors := names; summary := s; pdf_url := u |}
          | None => None
          end
      | _, _, _, _ => None
      end
  | _ => None
  end.

Fixpoint as_papers (vs : list value) : option (list PaperRecord) :=
  match vs with
  | [] => Some []
  | v :: rest =>
      match as_paper v, as_papers rest with
      | Some p, Some ps => Some (p :: ps)
      | _, _ => None
      end
  end.

(** The card of the paper numbered [number]: its title linked to its
    [pdf_url], its authors joined by commas, its summary. *)
Definition card_block (number : nat) (p : PaperRecord) : string :=
  nl +:+ "### [" +:+ str_of_int (Z.of_nat number) +:+ ". " +:+ title p
     +:+ "](" +:+ pdf_url p +:+ ")" +:+ nl +:+ nl
     +:+ "**Authors:** " +:+ join ", " (authors p) +:+ nl +:+ nl
     +:+ "**Abstract:** " +:+ summary p +:+ nl +:+ nl.

(** The cards of a paper sequence, numbered from 1 in its order. *)
Definition card_blocks (ps : list PaperRecord) : list string :=
  imap (fun i p => card_block (S i) p) ps.

(** The outer scrollable container around [content]. *)
Definition card_container (content : string) : string :=
  nl +:+ "<div style=" +:+ dquote +:+ "flex: 1; overflow-y: auto;" +:+ dquote +:+ ">" +:+ nl
     +:+ content +:+ nl +:+ "</div>" +:+ nl.

(** The three labelled lines of one paper and the blank line after them. *)
Definition grounding_block (p : PaperRecord) : string :=
  "题目：" +:+ title p +:+ nl
    +:+ "作者：" +:+ join ", " (authors p) +:+ nl
    +:+ "摘要：" +:+ summary p +:+ nl +:+ nl.

Definition grounding_text (ps : list PaperRecord) : string :=
  cat (map grounding_block ps).

(** The grounded-answer template filled with [content] and [message]. *)
Definition grounded_prompt (content message : string) : string :=
  "请根据arXiv论文候选集来回答问题，不要编造，若arXiv论文候选集为空，提醒我检查arXiv服务是否可用。"
    +:+ nl +:+ nl +:+ "arXiv论文候选集：" +:+ nl +:+ nl
    +:+ content +:+ nl +:+ nl +:+ "问题：" +:+ nl +:+ nl
    +:+ message +:+ nl.

(** One history turn replayed: the query, then the response. *)
Definition turn_messages (turn : string * string) : list msg :=
  [Msg user (fst turn); Msg assistant (snd turn)].

Definition history_messages (history : list (string * string)) : list msg :=
  flat_map turn_messages history.

(** The fields each formatter reads, in the order it reads them. *)
Definition CARD_FIELDS : list string := ["title"; "authors"; "summary"; "pdf_url"].
Definition GROUNDING_FIELDS : list string := ["title"; "authors"; "summary"].

Fixpoint strs_only (l : list value) : bool :=
  match l with
  | [] => true
  | VStr _ :: rest => strs_only rest
  | _ :: _ => false
  end.

(** A record whose fields may be missing: a [dict] whose [authors], when
    present, is a list of [str]. *)
Definition record_shaped (v : value) : bool :=
  match v with
  | VDict kvs =>
      match dict_get kvs "authors" with
      | Some (VList l) => strs_only l
      | Some _ => false
      | None => true
      end
  | _ => false
  end.

(** The first of [fields] that [paper] lacks. *)
Fixpoint missing_field (fields : list string) (paper : value) : option string :=
  match fields with
  | [] => None
  | key :: rest =>
      match paper with
      | VDict kvs =>
          match dict_get kvs key with
          | Some _ => missing_field rest paper
          | None => Some key
          end
      | _ => None
      end
  end.

(** The first missing field of the first paper that lacks one. *)
Fixpoint first_missing (fields : list string) (papers : list value) : option string :=
  match papers with
  | [] => None
  | paper :: rest =>
      match missing_field fields paper with
      | Some key => Some key
      | None => first_missing fields rest
      end
  end.

(** [paper] is a [dict] without [key]. *)
Definition lacks (paper : value) (key : string) : bool :=
  match paper with
  | VDict kvs =>
      match dict_get kvs key with
      | Some _ => false
      | None => true
      end
  | _ => false
  end.

(** Some paper lacks one of [fields]. *)
Definition incomplete (fields : list string) (papers : list value) : bool :=
  existsb (fun paper => existsb (lacks paper) fields) papers.

Section Assigns.
Context {llm_cls tool_cls llm_handle tool_handle : Type}.

(** A method body that never assigns an attribute of [self]. *)
Fixpoint read_only {A : Type} (p : @prog llm_cls tool_cls llm_handle tool_handle A) : Prop :=
  match p with
  | Ret _ | Raise _ => True
  | SetLLM _ _ | SetTool _ _ => False
  | LogInfo _ k => read_only k
  | GetLLM k => forall h, read_only (k h)
  | GetTool k => forall t, read_only (k t)
  | NewLLM _ _ _ k => forall h, read_only (k h)
  | NewTool _ k => forall t, read_only (k t)
  | LLMModel _ k => forall v, read_only (k v)
  | Invoke _ _ _ k => forall r, read_only (k r)
  | InvokeStream _ _ _ k => forall r, read_only (k r)
  | ToolCall _ _ _ k => forall v, read_only (k v)
  end.

(** Collaborators whose answers depend on their arguments alone, not on
    the state they keep. *)
Definition deterministic {W : Type} (C : @collaborators llm_cls tool_cls llm_handle tool_handle W)
  : Prop :=
  (forall cls model cfg w w', fst (llm_init C cls model cfg w) = fst (llm_init C cls model cfg w'))
  /\ (forall h w w', fst (llm_model C h w) = fst (llm_model C h w'))
  /\ (forall h ms cfg w w', fst (llm_invoke C h ms cfg w) = fst (llm_invoke C h ms cfg w'))
  /\ (forall h ms cfg w w',
        fst (llm_invoke_stream C h ms cfg w) = fst (llm_invoke_stream C h ms cfg w'))
  /\ (forall cls w w', fst (tool_init C cls w) = fst (tool_init C cls w'))
  /\ (forall t text n w w', fst (tool_call C t text n w) = fst (tool_call C t text n w')).

(** The model call [_chat] makes for a given [stream] flag. *)
Definition model_call {W : Type} (C : @collaborators llm_cls tool_cls llm_handle tool_handle W)
    (stream : bool) : llm_handle -> list msg -> value -> W -> result string * W :=
  if stream then llm_invoke_stream C else llm_invoke C.

Definition model_event (stream : bool) (h : llm_handle) (messages : list msg) (cfg : value)
  : @event llm_cls tool_cls llm_handle tool_handle :=
  if stream then EvInvokeStream h messages cfg else EvInvoke h messages cfg.

(** The search step of a call goes through: the bot holds the model [h]
    and the tool [t], the model answers the search-intent conversation
    with [raw], and the tool, handed [raw], answers with [papers]. *)
Definition search_answers {W : Type} (C : @collaborators llm_cls tool_cls llm_handle tool_handle W)
    (self : bot) (w : W) (h : llm_handle) (t : tool_handle)
    (message : string) (history_search : list (string * string)) (cfg : value)
    (max_results : Z) (raw : string) (papers : value) (w2 : W) : Prop :=
  llm self = Some h
  /\ tool self = Some t
  /\ exists w1,
       llm_invoke C h (chat_messages message history_search (Some ARXIV_SEARCH_PROMPT)) cfg w
         = (Ok raw, w1)
       /\ tool_call C t raw max_results w1 = (Ok papers, w2).

End Assigns.

(** ** More vocabulary: the shape of a run of [chat] *)

Section Shapes.
Context {llm_cls tool_cls llm_handle tool_handle : Type}.

Definition is_invoke (ev : @event llm_cls tool_cls llm_handle tool_handle) : bool :=
  match ev with
  | EvInvoke _ _ _ => true
  | _ => false
  end.

Definition is_model_call (ev : @event llm_cls tool_cls llm_handle tool_handle) : bool :=
  match ev with
  | EvInvoke _ _ _ | EvInvokeStream _ _ _ => true
  | _ => false
  end.

Definition is_tool_call (ev : @event llm_cls tool_cls llm_handle tool_handle) : bool :=
  match ev with
  | EvCall _ _ _ => true
  | _ => false
  end.

(** Nothing, or a non-streaming model call, then perhaps a tool call,
    then perhaps one more model call. *)
Definition chat_shaped (events : list (@event llm_cls tool_cls llm_handle tool_handle)) : bool :=
  match events with
  | [] => true
  | [a] => is_invoke a
  | [a; b] => is_invoke a && is_tool_call b
  | [a; b; c] => is_invoke a && is_tool_call b && is_model_call c
  | _ => false
  end.

End Shapes.

(** Collaborators that fail, one operation at a time. *)
Module Faulty.
Import SampleWorld.

Definition timeout : exn := Raised "timeout".

Definition model_down : @collaborators string string (string * value) string nat :=
  Collaborators (llm_init world) (llm_model world)
    (fun _ _ _ w => (Err timeout, S w))
    (llm_invoke_stream world) (tool_init world) (tool_call world).

Definition stream_down : @collaborators string string (string * value) string nat :=
  Collaborators (llm_init world) (llm_model world) (llm_invoke world)
    (fun _ _ _ w => (Err timeout, S w))
    (tool_init world) (tool_call world).

Definition tool_down : @collaborators string string (string * value) string nat :=
  Collaborators (llm_init world) (llm_model world) (llm_invoke world)
    (llm_invoke_stream world) (tool_init world)
    (fun _ _ _ w => (Err timeout, S w)).

Definition constructor_down : @collaborators string string (string * value) string nat :=
  Collaborators (fun _ _ _ w => (Err timeout, S w))
    (llm_model world) (llm_invoke world) (llm_invoke_stream world)
    (tool_init world) (tool_call world).

(** A tool whose answer is one record without [pdf_url]. *)
Definition broken_tool : @collaborators string string (string * value) string nat :=
  Collaborators (llm_init world) (llm_model world) (llm_invoke world)
    (llm_invoke_stream world) (tool_init world)
    (fun _ _ _ w => (Ok (VStr (Sample.dumps (VList [no_link]))), S w)).

(** A configuration naming a registered engine, a model and its options. *)
Definition config : gmap string value :=
  {[ "engine" := VStr "openai"; "model" := VStr "gpt-4o";
     "model_config" := VDict [("temperature", VInt 0)] ]}.

(** A record whose [authors] is one text, not a list. *)
Definition one_author : value :=
  VDict [ ("title", VStr "Graph Attention Networks");
          ("authors", VStr "Kipf");
          ("summary", VStr "Attention over graph neighbourhoods.");
          ("pdf_url", VStr "http://arxiv.org/pdf/1710.10903") ].

End Faulty.

(** * Properties *)

(** ** Text *)

Lemma append_cons (c : ascii) (s t : string) : String c s +:+ t = String c (s +:+ t).
Proof. reflexivity. Qed.

Lemma append_nil_r (s : string) : s +:+ "" = s.
Proof.
  induction s as [|c s IH]; [reflexivity |].
  now rewrite append_cons, IH.
Qed.

Lemma append_assoc (a b c : string) : (a +:+ b) +:+ c = a +:+ (b +:+ c).
Proof.
  induction a as [|x a IH]; [reflexivity |].
  now rewrite !append_cons, IH.
Qed.

Lemma length_append (a b : string) :
  String.length (a +:+ b) = (String.length a + String.length b)%nat.
Proof.
  induction a as [|x a IH]; [reflexivity |].
  rewrite append_cons. simpl. now rewrite IH.
Qed.

Lemma cat_cons (s : string) (l : list string) : cat (s :: l) = s +:+ cat l.
Proof. reflexivity. Qed.

Lemma cat_app (l1 l2 : list string) : cat (l1 ++ l2) = cat l1 +:+ cat l2.
Proof.
  induction l1 as [|s l1 IH]; [reflexivity |].
  change (cat (s :: (l1 ++ l2)) = cat (s :: l1) +:+ cat l2).
  now rewrite !cat_cons, IH, append_assoc.
Qed.

Section Properties.

Variable py_repr : value -> string.
Variable json_loads : string -> result value.
Context {llm_cls tool_cls llm_handle tool_handle W : Type}.
Variable LLM_REGISTRY : gmap string llm_cls.
Variable TOOL_REGISTRY : gmap string tool_cls.
Variable C : @collaborators llm_cls tool_cls llm_handle tool_handle W.

(** ** The paper formatter on well-formed records *)

Lemma as_strs_expect (l : list value) (ss : list string) :
  as_strs l = Some ss -> expect_strs l = Ok ss.
Proof.
  revert ss. induction l as [|v l IH]; intros ss H.
  - now inversion H.
  - destruct v; try discriminate. simpl in H.
    destruct (as_strs l) as [ss'|]; [|discriminate].
    inversion H; subst. simpl. now rewrite (IH ss').
Qed.

Lemma as_paper_fields (v : value) (p : PaperRecord) :
  as_paper v = Some p ->
  exists kvs l,
    v = VDict kvs
    /\ dict_get kvs "title" = Some (VStr (title p))
    /\ dict_get kvs "authors" = Some (VList l)
    /\ expect_strs l = Ok (authors p)
    /\ dict_get kvs "summary" = Some (VStr (summary p))
    /\ dict_get kvs "pdf_url" = Some (VStr (pdf_url p)).
Proof.
  destruct v as [| | | | |kvs]; try discriminate. unfold as_paper.
  destruct (dict_get kvs "title") as [[| | |t| |]|] eqn:Et; try discriminate.
  destruct (dict_get kvs "authors") as [[| | | |l|]|] eqn:Ea; try discriminate.
  destruct (dict_get kvs "summary") as [[| | |s| |]|] eqn:Es; try discriminate.
  destruct (dict_get kvs "pdf_url") as [[| | |u| |]|] eqn:Eu; try discriminate.
  destruct (as_strs l) as [names|] eqn:E; [|discriminate].
  intros H. inversion H; subst. exists kvs, l. simpl.
  repeat split; try assumption. now apply as_strs_expect.
Qed.

Lemma paper_card_ok (index : nat) (v : value) (p : PaperRecord) :
  as_paper v = Some p ->
  paper_card py_repr index v = Ok (card_block (S index) p).
Proof.
  intros H. destruct (as_paper_fields v p H) as (kvs & l & -> & Ht & Ha & Hl & Hs & Hu).
  unfold paper_card, getitem, str_join. rewrite Ht, Ha, Hs, Hu. simpl. rewrite Hl.
  simpl. replace (Z.of_nat index + 1) with (Z.of_nat (S index)) by lia.
  reflexivity.
Qed.

Lemma cards_loop_ok (vs : list value) (ps : list PaperRecord) :
  as_papers vs = Some ps ->
  forall (index : nat) (acc : string),
    cards_loop py_repr index vs acc
    = Ok (acc +:+ cat (imap (fun i p => card_block (S (index + i)) p) ps)).
Proof.
  revert ps. induction vs as [|v vs IH]; intros ps H index acc.
  - inversion H; subst. simpl. now rewrite append_nil_r.
  - simpl in H. destruct (as_paper v) as [p|] eqn:Ev; [|discriminate].
    destruct (as_papers vs) as [ps'|]; [|discriminate].
    inversion H; subst. cbn [cards_loop]. rewrite (paper_card_ok index v p Ev).
    cbn [rbind]. rewrite (IH ps' eq_refl (S index)).
    rewrite imap_cons, cat_cons, append_assoc, Nat.add_0_r. do 4 f_equal.
    apply imap_ext. intros i x _. cbn [compose]. now rewrite Nat.add_succ_r.
Qed.

Lemma as_papers_length (vs : list value) (ps : list PaperRecord) :
  as_papers vs = Some ps -> length ps = length vs.
Proof.
  revert ps. induction vs as [|v vs IH]; intros ps H.
  - now inversion H.
  - simpl in H. destruct (as_paper v); [|discriminate].
    destruct (as_papers vs) as [ps'|]; [|discriminate].
    inversion H; subst. simpl. now rewrite (IH ps').
Qed.

Lemma render_cards_ok (s : string) (vs : list value) (ps : list PaperRecord) :
  truthy (VStr s) = true ->
  json_loads s = Ok (VList vs) ->
  as_papers vs = Some ps ->
  _generate_paper_cards py_repr json_loads (VStr s) = Ok (card_container (cat (card_blocks ps))).
Proof.
  intros Hs Hl Hp. unfold _generate_paper_cards. rewrite Hs. simpl. rewrite Hl. simpl.
  rewrite (cards_loop_ok vs ps Hp). simpl. reflexivity.
Qed.

Lemma grounding_lines_ok (content : string) (v : value) (p : PaperRecord) :
  as_paper v = Some p ->
  grounding_lines py_repr content v = Ok (content +:+ grounding_block p).
Proof.
  intros H. destruct (as_paper_fields v p H) as (kvs & l & -> & Ht & Ha & Hl & Hs & Hu).
  unfold grounding_lines, getitem, str_join. rewrite Ht, Ha, Hs. simpl. rewrite Hl.
  simpl. rewrite !append_assoc. reflexivity.
Qed.

Lemma grounding_loop_ok (vs : list value) (ps : list PaperRecord) :
  as_papers vs = Some ps ->
  forall content : string,
    grounding_loop py_repr vs content = Ok (content +:+ grounding_text ps).
Proof.
  revert ps. induction vs as [|v vs IH]; intros ps H content.
  - inversion H; subst. simpl. now rewrite append_nil_r.
  - simpl in H. destruct (as_paper v) as [p|] eqn:Ev; [|discriminate].
    destruct (as_papers vs) as [ps'|]; [|discriminate].
    inversion H; subst. cbn [grounding_loop]. rewrite (grounding_lines_ok content v p Ev).
    cbn [rbind]. rewrite (IH ps' eq_refl). unfold grounding_text. cbn [map].
    now rewrite cat_cons, append_assoc.
Qed.

Lemma grounding_prompt_ok (message s : string) (vs : list value) (ps : list PaperRecord) :
  truthy (VStr s) = true ->
  json_loads s = Ok (VList vs) ->
  as_papers vs = Some ps ->
  _prepare_message_for_llm py_repr json_loads message (VStr s)
  = Ok (grounded_prompt (grounding_text ps) message).
Proof.
  intros Hs Hl Hp. unfold _prepare_message_for_llm. rewrite Hs. simpl. rewrite Hl. simpl.
  rewrite (grounding_loop_ok vs ps Hp). simpl. reflexivity.
Qed.

Lemma falsy_cards (papers : value) :
  truthy papers = false -> _generate_paper_cards py_repr json_loads papers = Ok "".
Proof. intros H. unfold _generate_paper_cards. now rewrite H. Qed.

Lemma falsy_prompt (message : string) (papers : value) :
  truthy papers = false -> _prepare_message_for_llm py_repr json_loads message papers = Ok message.
Proof. intros H. unfold _prepare_message_for_llm. now rewrite H. Qed.

(** ** The paper formatter on records with missing fields *)

Lemma strs_only_expect (l : list value) :
  strs_only l = true -> exists ss, expect_strs l = Ok ss.
Proof.
  induction l as [|v l IH]; intros H.
  - now exists [].
  - destruct v; try discriminate. destruct (IH H) as [ss E].
    exists (s :: ss). cbn [expect_strs]. now rewrite E.
Qed.

Lemma paper_card_outcome (index : nat) (paper : value) :
  record_shaped paper = true ->
  match missing_field CARD_FIELDS paper with
  | Some key => paper_card py_repr index paper = Err (KeyError (VStr key))
  | None => exists card, paper_card py_repr index paper = Ok card
  end.
Proof.
  destruct paper as [| | | | |kvs]; try discriminate.
  unfold record_shaped, paper_card, getitem, str_join, CARD_FIELDS. cbn [missing_field].
  intros H.
  destruct (dict_get kvs "title") as [t|]; [|reflexivity]. cbn [rbind].
  destruct (dict_get kvs "authors") as [a|]; [|reflexivity]. cbn [rbind].
  destruct a as [| | | |l|]; try discriminate.
  destruct (strs_only_expect l H) as [ss E]. cbn [py_iter rbind]. rewrite E. cbn [rbind].
  destruct (dict_get kvs "summary") as [s|]; [|reflexivity]. cbn [rbind].
  destruct (dict_get kvs "pdf_url") as [u|]; [|reflexivity]. cbn [rbind].
  eexists. reflexivity.
Qed.

Lemma grounding_lines_outcome (content : string) (paper : value) :
  record_shaped paper = true ->
  match missing_field GROUNDING_FIELDS paper with
  | Some key => grounding_lines py_repr content paper = Err (KeyError (VStr key))
  | None => exists content', grounding_lines py_repr content paper = Ok content'
  end.
Proof.
  destruct paper as [| | | | |kvs]; try discriminate.
  unfold record_shaped, grounding_lines, getitem, str_join, GROUNDING_FIELDS. cbn [missing_field].
  intros H.
  destruct (dict_get kvs "title") as [t|]; [|reflexivity]. cbn.
  destruct (dict_get kvs "authors") as [a|]; [|reflexivity]. cbn [rbind].
  destruct a as [| | | |l|]; try discriminate.
  destruct (strs_only_expect l H) as [ss E]. cbn [py_iter rbind]. rewrite E. cbn.
  destruct (dict_get kvs "summary") as [s|]; [|reflexivity]. cbn.
  eexists. reflexivity.
Qed.

Lemma cards_loop_outcome (papers : list value) :
  forallb record_shaped papers = true ->
  forall (index : nat) (acc : string),
    match first_missing CARD_FIELDS papers with
    | Some key => cards_loop py_repr index papers acc = Err (KeyError (VStr key))
    | None => exists out, cards_loop py_repr index papers acc = Ok out
    end.
Proof.
  induction papers as [|paper papers IH]; intros H index acc.
  - cbn. now exists acc.
  - cbn [forallb] in H. apply andb_true_iff in H as [Hp Hps].
    cbn [first_missing cards_loop]. pose proof (paper_card_outcome index paper Hp) as Hc.
    destruct (missing_field CARD_FIELDS paper) as [key|].
    + now rewrite Hc.
    + destruct Hc as [card ->]. cbn [rbind]. apply IH, Hps.
Qed.

Lemma grounding_loop_outcome (papers : list value) :
  forallb record_shaped papers = true ->
  forall content : string,
    match first_missing GROUNDING_FIELDS papers with
    | Some key => grounding_loop py_repr papers content = Err (KeyError (VStr key))
    | None => exists out, grounding_loop py_repr papers content = Ok out
    end.
Proof.
  induction papers as [|paper papers IH]; intros H content.
  - cbn. now exists content.
  - cbn [forallb] in H. apply andb_true_iff in H as [Hp Hps].
    cbn [first_missing grounding_loop].
    pose proof (grounding_lines_outcome content paper Hp) as Hc.
    destruct (missing_field GROUNDING_FIELDS paper) as [key|].
    + now rewrite Hc.
    + destruct Hc as [content' ->]. cbn [rbind]. apply IH, Hps.
Qed.

Lemma missing_field_in (fields : list string) (paper : value) (key : string) :
  missing_field fields paper = Some key -> In key fields /\ lacks paper key = true.
Proof.
  induction fields as [|f fields IH]; [discriminate |].
  destruct paper as [| | | | |kvs]; try discriminate. cbn [missing_field lacks].
  destruct (dict_get kvs f) eqn:E.
  - intros H. destruct (IH H) as [Hin Hl]. split; [now right | exact Hl].
  - intros H. inversion H; subst. split; [now left |]. now rewrite E.
Qed.

Lemma missing_field_none (fields : list string) (paper : value) :
  record_shaped paper = true ->
  missing_field fields paper = None -> existsb (lacks paper) fields = false.
Proof.
  destruct paper as [| | | | |kvs]; try discriminate. intros _.
  induction fields as [|f fields IH]; [reflexivity |].
  cbn [missing_field existsb lacks]. destruct (dict_get kvs f); [|discriminate].
  intros H. now rewrite (IH H).
Qed.

Lemma first_missing_some (fields : list string) (papers : list value) :
  forallb record_shaped papers = true ->
  incomplete fields papers = true ->
  exists key, first_missing fields papers = Some key /\ In key fields.
Proof.
  unfold incomplete. induction papers as [|paper papers IH]; [discriminate |].
  cbn [forallb existsb first_missing]. intros H Hex.
  apply andb_true_iff in H as [Hp Hps].
  destruct (missing_field fields paper) as [key|] eqn:E.
  - exists key. split; [reflexivity |]. now apply (missing_field_in fields paper).
  - rewrite (missing_field_none fields paper Hp E) in Hex. cbn [orb] in Hex.
    now apply IH.
Qed.

Lemma first_missing_none (fields : list string) (papers : list value) :
  incomplete fields papers = false -> first_missing fields papers = None.
Proof.
  unfold incomplete. induction papers as [|paper papers IH]; [reflexivity |].
  cbn [existsb first_missing]. intros H. apply orb_false_iff in H as [Hp Hps].
  destruct (missing_field fields paper) as [key|] eqn:E; [|now apply IH].
  destruct (missing_field_in fields paper key E) as [Hin Hl].
  assert (existsb (lacks paper) fields = true) as Hx
    by (apply existsb_exists; exists key; split; assumption).
  congruence.
Qed.

(** ** The conversation turn builder and the runs of the methods *)

Lemma fold_turns (history : list (string * string)) (init : list msg) :
  fold_left
    (fun messages turn =>
       let '(query, response) := turn in
       (messages ++ [Msg user query]) ++ [Msg assistant response])
    history init
  = init ++ history_messages history.
Proof.
  revert init. induction history as [|[q r] history IH]; intros init.
  - simpl. now rewrite app_nil_r.
  - cbn [fold_left]. rewrite IH. unfold history_messages. cbn [flat_map turn_messages fst snd].
    now rewrite <- !app_assoc.
Qed.

Lemma chat_messages_eq (message : string) (history : list (string * string))
    (system_prompt : option string) :
  chat_messages message history system_prompt
  = (if nonempty system_prompt then [Msg system (default "" system_prompt)] else [])
      ++ history_messages history ++ [Msg user message].
Proof.
  unfold chat_messages. destruct history as [|turn history].
  - cbn [length Nat.ltb Nat.leb]. unfold history_messages. cbn [flat_map].
    destruct (nonempty system_prompt); reflexivity.
  - replace (Nat.ltb 0 (length (turn :: history))) with true by reflexivity.
    rewrite fold_turns. destruct (nonempty system_prompt); now rewrite <- ?app_assoc.
Qed.

Lemma history_messages_length (history : list (string * string)) :
  length (history_messages history) = (2 * length history)%nat.
Proof.
  induction history as [|turn history IH]; [reflexivity |].
  unfold history_messages in *. cbn [flat_map]. rewrite length_app, IH. simpl. lia.
Qed.

Lemma search_run (self : bot) (w w1 w2 : W) (h : llm_handle) (t : tool_handle)
    (message : string) (history : list (string * string)) (cfg : value) (max_results : Z)
    (raw : string) (papers : value) :
  llm self = Some h ->
  tool self = Some t ->
  llm_invoke C h (chat_messages message history (Some ARXIV_SEARCH_PROMPT)) cfg w = (Ok raw, w1) ->
  tool_call C t raw max_results w1 = (Ok papers, w2) ->
  run C (_search_from_arxiv message history cfg max_results) self w
  = Outcome (Ok (papers, raw)) self w2
      [ EvInvoke h (chat_messages message history (Some ARXIV_SEARCH_PROMPT)) cfg;
        EvCall t raw max_results ].
Proof.
  intros Hl Ht Hi Hc. unfold _search_from_arxiv, _chat, self_llm, self_tool.
  cbn [pbind run]. rewrite Hl. cbn [pbind run]. rewrite Hi. cbn [call_out pbind run].
  rewrite Ht. cbn [pbind run]. rewrite Hc. reflexivity.
Qed.

Lemma chat_run (self : bot) (w w1 w2 w3 : W) (h : llm_handle) (t : tool_handle)
    (message : string) (history_chat history_search : list (string * string))
    (cfg : value) (max_results : Z) (stream : bool)
    (raw : string) (papers : value) (cards prompt answer : string) :
  llm self = Some h ->
  tool self = Some t ->
  llm_invoke C h (chat_messages message history_search (Some ARXIV_SEARCH_PROMPT)) cfg w
    = (Ok raw, w1) ->
  tool_call C t raw max_results w1 = (Ok papers, w2) ->
  _generate_paper_cards py_repr json_loads papers = Ok cards ->
  _prepare_message_for_llm py_repr json_loads message papers = Ok prompt ->
  model_call C stream h (chat_messages prompt history_chat (Some ARXIV_SYSTEM_PROMPT)) cfg w2
    = (Ok answer, w3) ->
  run C (chat py_repr json_loads message history_chat history_search cfg max_results stream)
      self w
  = Outcome (Ok (answer, cards, raw)) self w3
      [ EvInvoke h (chat_messages message history_search (Some ARXIV_SEARCH_PROMPT)) cfg;
        EvCall t raw max_results;
        model_event stream h (chat_messages prompt history_chat (Some ARXIV_SYSTEM_PROMPT)) cfg ].
Proof.
  intros Hl Ht Hi Hc Hcards Hprompt Hm. unfold chat, _search_from_arxiv, _chat, self_llm, self_tool.
  cbn [pbind run]. rewrite Hl. cbn [pbind run]. rewrite Hi. cbn [call_out pbind run].
  rewrite Ht. cbn [pbind run]. rewrite Hc. cbn [call_out pbind run].
  rewrite Hcards, Hprompt. cbn [lift pbind run]. rewrite Hl.
  unfold model_call, model_event in *. destruct stream; cbn [pbind run]; rewrite Hm; reflexivity.
Qed.

Lemma read_only_frame {A : Type} (p : prog A) :
  read_only p -> forall (self : bot) (w : W), self_after (run C p self w) = self.
Proof.
  induction p as [a|e|text k IH|k IH|h k IH|k IH|t k IH|cls m c k IH|cls k IH|h k IH
                  |h ms c k IH|h ms c k IH|t text n k IH];
    cbn [read_only run]; intros Hro self w; try reflexivity; try contradiction.
  - apply IH, Hro.
  - destruct (llm self); [apply IH, Hro | reflexivity].
  - destruct (tool self); [apply IH, Hro | reflexivity].
  - destruct (llm_init C cls m c w) as [[x|e] w']; cbn; [apply IH, Hro | reflexivity].
  - destruct (tool_init C cls w) as [[x|e] w']; cbn; [apply IH, Hro | reflexivity].
  - destruct (llm_model C h w) as [[x|e] w']; cbn; [apply IH, Hro | reflexivity].
  - destruct (llm_invoke C h ms c w) as [[x|e] w']; cbn; [apply IH, Hro | reflexivity].
  - destruct (llm_invoke_stream C h ms c w) as [[x|e] w']; cbn; [apply IH, Hro | reflexivity].
  - destruct (tool_call C t text n w) as [[x|e] w']; cbn; [apply IH, Hro | reflexivity].
Qed.

Lemma lift_read_only {A : Type} (r : result A) :
  read_only (@lift llm_cls tool_cls llm_handle tool_handle A r).
Proof. destruct r; exact I. Qed.

Lemma chat_read_only (message : string) (history_chat history_search : list (string * string))
    (cfg : value) (max_results : Z) (stream : bool) :
  read_only
    (@chat py_repr json_loads llm_cls tool_cls llm_handle tool_handle
       message history_chat history_search cfg max_results stream).
Proof.
  unfold chat, _search_from_arxiv, _chat, self_llm, self_tool. cbn [pbind read_only].
  intros h raw t papers.
  destruct (_generate_paper_cards py_repr json_loads papers) as [cards|e]; [|exact I].
  cbn [lift pbind].
  destruct (_prepare_message_for_llm py_repr json_loads message papers) as [prompt|e]; [|exact I].
  cbn [lift pbind read_only]. intros h'. destruct stream; cbn [pbind read_only]; intros; exact I.
Qed.

Lemma run_world_independent {A : Type} (p : prog A) :
  deterministic C ->
  forall (self : bot) (w w' : W),
    returned (run C p self w) = returned (run C p self w')
    /\ self_after (run C p self w) = self_after (run C p self w')
    /\ trace (run C p self w) = trace (run C p self w').
Proof.
  intros (D1 & D2 & D3 & D4 & D5 & D6).
  induction p as [a|e|text k IH|k IH|h k IH|k IH|t k IH|cls m c k IH|cls k IH|h k IH
                  |h ms c k IH|h ms c k IH|t text n k IH];
    cbn [run]; intros self w w'; try (repeat split; reflexivity).
  - destruct (IH self w w') as (E1 & E2 & E3). cbn. repeat split; congruence.
  - destruct (llm self); [apply IH | repeat split; reflexivity].
  - apply IH.
  - destruct (tool self); [apply IH | repeat split; reflexivity].
  - apply IH.
  - specialize (D1 cls m c w w').
    destruct (llm_init C cls m c w) as [[x|e] w1], (llm_init C cls m c w') as [[x'|e'] w1'];
      cbn in D1; try discriminate; inversion D1; subst; cbn; [|repeat split; reflexivity].
    destruct (IH x' self w1 w1') as (E1 & E2 & E3). repeat split; congruence.
  - specialize (D5 cls w w').
    destruct (tool_init C cls w) as [[x|e] w1], (tool_init C cls w') as [[x'|e'] w1'];
      cbn in D5; try discriminate; inversion D5; subst; cbn; [|repeat split; reflexivity].
    destruct (IH x' self w1 w1') as (E1 & E2 & E3). repeat split; congruence.
  - specialize (D2 h w w').
    destruct (llm_model C h w) as [[x|e] w1], (llm_model C h w') as [[x'|e'] w1'];
      cbn in D2; try discriminate; inversion D2; subst; cbn; [|repeat split; reflexivity].
    destruct (IH x' self w1 w1') as (E1 & E2 & E3). repeat split; congruence.
  - specialize (D3 h ms c w w').
    destruct (llm_invoke C h ms c w) as [[x|e] w1], (llm_invoke C h ms c w') as [[x'|e'] w1'];
      cbn in D3; try discriminate; inversion D3; subst; cbn; [|repeat split; reflexivity].
    destruct (IH x' self w1 w1') as (E1 & E2 & E3). repeat split; congruence.
  - specialize (D4 h ms c w w').
    destruct (llm_invoke_stream C h ms c w) as [[x|e] w1],
             (llm_invoke_stream C h ms c w') as [[x'|e'] w1'];
      cbn in D4; try discriminate; inversion D4; subst; cbn; [|repeat split; reflexivity].
    destruct (IH x' self w1 w1') as (E1 & E2 & E3). repeat split; congruence.
  - specialize (D6 t text n w w').
    destruct (tool_call C t text n w) as [[x|e] w1], (tool_call C t text n w') as [[x'|e'] w1'];
      cbn in D6; try discriminate; inversion D6; subst; cbn; [|repeat split; reflexivity].
    destruct (IH x' self w1 w1') as (E1 & E2 & E3). repeat split; congruence.
Qed.

(** ** Construction *)

Lemma init_unknown_engine (llm_config : option (gmap string value)) (name : string)
    (self : bot) (w : W) :
  resolve_engine (fst (fst (parse_llm_config llm_config))) = VStr name ->
  LLM_REGISTRY !! name = None ->
  run C (__init__ py_repr LLM_REGISTRY TOOL_REGISTRY llm_config) self w
  = Outcome (Err (KeyError (VStr name))) self w [EvLog "Setting up LLM..."].
Proof.
  unfold __init__, parse_llm_config, setup_model, log_info. cbn [fst].
  intros -> Hreg. cbn [pbind run registry_lookup]. rewrite Hreg. reflexivity.
Qed.

Lemma absent_engine_default (llm_config : option (gmap string value)) :
  (llm_config = None \/ exists c, llm_config = Some c /\ c !! "engine" = None) ->
  resolve_engine (fst (fst (parse_llm_config llm_config))) = VStr "openai".
Proof.
  unfold parse_llm_config, config_get. cbn [fst].
  intros [-> | (c & -> & E)].
  - now rewrite lookup_empty.
  - now rewrite E.
Qed.

End Properties.

(** ** The claims of the specification *)

Section Claims.

Variable py_repr : value -> string.
Variable json_loads : string -> result value.
Context {llm_cls tool_cls llm_handle tool_handle W : Type}.
Variable LLM_REGISTRY : gmap string llm_cls.
Variable TOOL_REGISTRY : gmap string tool_cls.
Variable C : @collaborators llm_cls tool_cls llm_handle tool_handle W.

Lemma chat_messages_last (message : string) (history : list (string * string))
    (system_prompt : option string) :
  last (chat_messages message history system_prompt) = Some (Msg user message).
Proof. rewrite chat_messages_eq, !app_assoc. apply last_snoc. Qed.

(** Claim C1.  When the papers value is empty or absent (falsy), the
    grounding prompt is the message itself.  Otherwise, for a non-empty
    serialized list of paper records, it is the grounded-answer template
    filled with the message and with the grounding text: for each paper,
    in input order, a title line, a line of comma-joined authors and a
    summary line, closed by a blank line.  In [chat] this prompt is the
    content of the last message of the final model invocation. *)
Theorem C1_grounding_prompt (message : string) (papers : value) :
  (truthy papers = false ->
   _prepare_message_for_llm py_repr json_loads message papers = Ok message)
  /\ (forall (s : string) (vs : list value) (ps : list PaperRecord),
        papers = VStr s ->
        truthy papers = true ->
        json_loads s = Ok (VList vs) ->
        as_papers vs = Some ps ->
        _prepare_message_for_llm py_repr json_loads message papers
        = Ok (grounded_prompt (cat (map grounding_block ps)) message))
  /\ (forall (self : bot) (w w2 w3 : W) (h : llm_handle) (t : tool_handle)
        (history_chat history_search : list (string * string)) (cfg : value)
        (max_results : Z) (stream : bool) (raw cards prompt answer : string),
        search_answers C self w h t message history_search cfg max_results raw papers w2 ->
        _generate_paper_cards py_repr json_loads papers = Ok cards ->
        _prepare_message_for_llm py_repr json_loads message papers = Ok prompt ->
        model_call C stream h (chat_messages prompt history_chat (Some ARXIV_SYSTEM_PROMPT))
          cfg w2 = (Ok answer, w3) ->
        last (trace (run C (chat py_repr json_loads message history_chat history_search
                              cfg max_results stream) self w))
        = Some (model_event stream h
                  (chat_messages prompt history_chat (Some ARXIV_SYSTEM_PROMPT)) cfg)
        /\ last (chat_messages prompt history_chat (Some ARXIV_SYSTEM_PROMPT))
           = Some (Msg user prompt)).
Proof.
  split; [apply falsy_prompt |]. split.
  - intros s vs ps -> Hs Hl Hp. now apply (grounding_prompt_ok py_repr json_loads message s vs ps).
  - intros self w w2 w3 h t hc hs cfg n stream raw cards prompt answer
      (Hl & Ht & w1 & Hi & Hc) Hcards Hprompt Hm.
    rewrite (chat_run py_repr json_loads C self w w1 w2 w3 h t message hc hs cfg n stream
               raw papers cards prompt answer Hl Ht Hi Hc Hcards Hprompt Hm).
    split; [reflexivity | apply chat_messages_last].
Qed.

(** Claim C2.  On an empty or absent papers value, the empty list and
    [None] included, the card rendering returns the empty string, with
    no container around it; so when the search tool answers with such a
    value, the second component of the result of [chat] is the empty
    string. *)
Theorem C2_no_papers_no_cards :
  _generate_paper_cards py_repr json_loads (VList []) = Ok ""
  /\ _generate_paper_cards py_repr json_loads VNone = Ok ""
  /\ forall papers : value,
       truthy papers = false ->
       _generate_paper_cards py_repr json_loads papers = Ok ""
       /\ forall (self : bot) (w w2 w3 : W) (h : llm_handle) (t : tool_handle)
            (message : string) (history_chat history_search : list (string * string))
            (cfg : value) (max_results : Z) (stream : bool) (raw answer : string),
            search_answers C self w h t message history_search cfg max_results raw papers w2 ->
            model_call C stream h (chat_messages message history_chat (Some ARXIV_SYSTEM_PROMPT))
              cfg w2 = (Ok answer, w3) ->
            returned (run C (chat py_repr json_loads message history_chat history_search
                               cfg max_results stream) self w)
            = Ok (answer, "", raw).
Proof.
  split; [reflexivity |]. split; [reflexivity |].
  intros papers Hp. split; [now apply falsy_cards |].
  intros self w w2 w3 h t message hc hs cfg n stream raw answer (Hl & Ht & w1 & Hi & Hc) Hm.
  now rewrite (chat_run py_repr json_loads C self w w1 w2 w3 h t message hc hs cfg n stream
                 raw papers "" message answer Hl Ht Hi Hc
                 (falsy_cards py_repr json_loads papers Hp)
                 (falsy_prompt py_repr json_loads message papers Hp) Hm).
Qed.

(** Claim C3.  The messages [_chat] builds are the system message when
    the system prompt is non-empty, then the history turns in order, each
    as a user message followed by an assistant message, then a user
    message holding the new message: [2 * len(H) + 1] messages starting
    with a user message when the system prompt is empty or absent,
    [2 * len(H) + 2] messages starting with the system message
    otherwise. *)
Theorem C3_turn_sequence (message : string) (history : list (string * string))
    (system_prompt : option string) :
  let messages := chat_messages message history system_prompt in
  messages
  = (if nonempty system_prompt then [Msg system (default "" system_prompt)] else [])
      ++ flat_map (fun turn => [Msg user (fst turn); Msg assistant (snd turn)]) history
      ++ [Msg user message]
  /\ length messages
     = (if nonempty system_prompt then 2 * length history + 2 else 2 * length history + 1)%nat
  /\ head messages
     = Some (if nonempty system_prompt then Msg system (default "" system_prompt)
             else match history with
                  | [] => Msg user message
                  | (query, _) :: _ => Msg user query
                  end)
  /\ last messages = Some (Msg user message)
  /\ nonempty None = false
  /\ nonempty (Some "") = false
  /\ forall (c : ascii) (s : string), nonempty (Some (String c s)) = true.
Proof.
  cbn zeta. split; [apply chat_messages_eq |]. split.
  - rewrite chat_messages_eq, !length_app, history_messages_length.
    destruct (nonempty system_prompt); simpl; lia.
  - split.
    + rewrite chat_messages_eq. destruct (nonempty system_prompt); [reflexivity |].
      destruct history as [|[q r] history]; reflexivity.
    + split; [apply chat_messages_last |]. repeat split.
Qed.

(** Claim C4.  For a serialized sequence of paper records, the card
    rendering is the outer container wrapped once around the
    concatenation of exactly one card per paper, in the order of the
    input; the card at position [i] is numbered [i + 1] and holds the
    paper's title linked to its [pdf_url], its authors joined by commas
    and its summary. *)
Theorem C4_cards_in_order (s : string) (vs : list value) (ps : list PaperRecord) :
  truthy (VStr s) = true ->
  json_loads s = Ok (VList vs) ->
  as_papers vs = Some ps ->
  exists blocks : list string,
    _generate_paper_cards py_repr json_loads (VStr s) = Ok (card_container (cat blocks))
    /\ length blocks = length ps
    /\ forall (i : nat) (p : PaperRecord),
         ps !! i = Some p -> blocks !! i = Some (card_block (i + 1) p).
Proof.
  intros Hs Hl Hp. exists (card_blocks ps). split.
  - now apply (render_cards_ok py_repr json_loads s vs ps).
  - unfold card_blocks. split; [apply length_imap |].
    intros i p Hi. rewrite list_lookup_imap, Hi. simpl. now rewrite Nat.add_1_r.
Qed.

(** Claim C5.  The search step shows the model, through the
    non-streaming [invoke] and whatever the stream flag of [chat], the
    turn sequence made of the system message holding the (non-empty)
    search-intent prompt, the search history turns in order, each as a
    user message followed by an assistant message, and the user message
    holding the message; it hands the model's text unchanged, with
    [max_results], to the tool's [call], and returns the tool's answer
    as it is.  The third component of the result of [chat] is that
    text. *)
Theorem C5_search_step (self : bot) (w w2 : W) (h : llm_handle) (t : tool_handle)
    (message : string) (history_search : list (string * string)) (cfg : value)
    (max_results : Z) (raw : string) (papers : value) :
  search_answers C self w h t message history_search cfg max_results raw papers w2 ->
  let asked :=
    Msg system ARXIV_SEARCH_PROMPT
      :: flat_map (fun turn => [Msg user (fst turn); Msg assistant (snd turn)]) history_search
      ++ [Msg user message] in
  let search_events := [ EvInvoke h asked cfg; EvCall t raw max_results ] in
  ARXIV_SEARCH_PROMPT <> ""
  /\ run C (_search_from_arxiv message history_search cfg max_results) self w
     = Outcome (Ok (papers, raw)) self w2 search_events
  /\ forall (history_chat : list (string * string)) (stream : bool),
       let o := run C (chat py_repr json_loads message history_chat history_search
                         cfg max_results stream) self w in
       (exists rest, trace o = search_events ++ rest)
       /\ (forall (answer cards query : string),
             returned o = Ok (answer, cards, query) -> query = raw)
       /\ (forall (cards prompt answer : string) (w3 : W),
             _generate_paper_cards py_repr json_loads papers = Ok cards ->
             _prepare_message_for_llm py_repr json_loads message papers = Ok prompt ->
             model_call C stream h
               (chat_messages prompt history_chat (Some ARXIV_SYSTEM_PROMPT)) cfg w2
               = (Ok answer, w3) ->
             returned o = Ok (answer, cards, raw)).
Proof.
  intros (Hl & Ht & w1 & Hi & Hc). cbn zeta.
  assert (Hq : chat_messages message history_search (Some ARXIV_SEARCH_PROMPT)
               = Msg system ARXIV_SEARCH_PROMPT
                   :: flat_map (fun turn => [Msg user (fst turn); Msg assistant (snd turn)])
                        history_search
                   ++ [Msg user message]).
  { rewrite chat_messages_eq.
    replace (nonempty (Some ARXIV_SEARCH_PROMPT)) with true by reflexivity. reflexivity. }
  rewrite <- Hq. split; [discriminate |]. split.
  - now apply (search_run C self w w1 w2).
  - intros hc stream. split; [|split].
    + unfold chat, _search_from_arxiv, _chat, self_llm, self_tool.
      cbn [pbind run]. rewrite Hl. cbn [pbind run]. rewrite Hi. cbn [call_out pbind run].
      rewrite Ht. cbn [pbind run]. rewrite Hc. cbn [call_out pbind run].
      destruct (_generate_paper_cards py_repr json_loads papers) as [cards|e];
        [|now exists []].
      cbn [lift pbind run].
      destruct (_prepare_message_for_llm py_repr json_loads message papers) as [prompt|e];
        [|now exists []].
      cbn [lift pbind run]. rewrite Hl.
      destruct stream; cbn [pbind run].
      * destruct (llm_invoke_stream C h _ cfg w2) as [[a|e] w3]; cbn; eexists; reflexivity.
      * destruct (llm_invoke C h _ cfg w2) as [[a|e] w3]; cbn; eexists; reflexivity.
    + intros answer cards query.
      unfold chat, _search_from_arxiv, _chat, self_llm, self_tool.
      cbn [pbind run]. rewrite Hl. cbn [pbind run]. rewrite Hi. cbn [call_out pbind run].
      rewrite Ht. cbn [pbind run]. rewrite Hc. cbn [call_out pbind run].
      destruct (_generate_paper_cards py_repr json_loads papers) as [cards'|e];
        [|discriminate].
      cbn [lift pbind run].
      destruct (_prepare_message_for_llm py_repr json_loads message papers) as [prompt|e];
        [|discriminate].
      cbn [lift pbind run]. rewrite Hl.
      destruct stream; cbn [pbind run].
      * destruct (llm_invoke_stream C h _ cfg w2) as [[a|e] w3]; cbn; congruence.
      * destruct (llm_invoke C h _ cfg w2) as [[a|e] w3]; cbn; congruence.
    + intros cards prompt answer w3 Hcards Hprompt Hm.
      now rewrite (chat_run py_repr json_loads C self w w1 w2 w3 h t message hc history_search
                     cfg max_results stream raw papers cards prompt answer
                     Hl Ht Hi Hc Hcards Hprompt Hm).
Qed.

(** Claim C6.  When the resolved engine is not a key of the model
    registry, construction raises [KeyError] after the first log line
    and nothing else: no model and no search tool is built, and the
    bot's attributes stay as they were.  An absent engine resolves to
    [openai]. *)
Theorem C6_unknown_engine (llm_config : option (gmap string value)) (self : bot) (w : W) :
  let engine := resolve_engine (fst (fst (parse_llm_config llm_config))) in
  (forall name : string,
     engine = VStr name ->
     LLM_REGISTRY !! name = None ->
     run C (__init__ py_repr LLM_REGISTRY TOOL_REGISTRY llm_config) self w
     = Outcome (Err (KeyError (VStr name))) self w [EvLog "Setting up LLM..."])
  /\ ((llm_config = None \/ exists c, llm_config = Some c /\ c !! "engine" = None) ->
      engine = VStr "openai").
Proof.
  cbn zeta. split.
  - intros name He Hreg. now apply init_unknown_engine.
  - apply absent_engine_default.
Qed.

(** Claim C7, amended.  For a non-empty serialized list of records (each
    a [dict] whose [authors], when present, is a list of text): if some
    record lacks one of title, authors, summary, pdf_url, the card
    rendering raises [KeyError] for the first missing field of the first
    such record; if some record lacks one of title, authors, summary,
    the grounding prompt raises [KeyError] likewise; the grounding
    prompt never reads [pdf_url], so when no record lacks one of those
    three it is produced normally.  A raised error leaves no result. *)
Theorem C7_missing_field_key_error (message s : string) (vs : list value) :
  truthy (VStr s) = true ->
  json_loads s = Ok (VList vs) ->
  forallb record_shaped vs = true ->
  (incomplete CARD_FIELDS vs = true ->
   exists key,
     In key CARD_FIELDS
     /\ first_missing CARD_FIELDS vs = Some key
     /\ _generate_paper_cards py_repr json_loads (VStr s) = Err (KeyError (VStr key)))
  /\ (incomplete GROUNDING_FIELDS vs = true ->
      exists key,
        In key GROUNDING_FIELDS
        /\ first_missing GROUNDING_FIELDS vs = Some key
        /\ _prepare_message_for_llm py_repr json_loads message (VStr s)
           = Err (KeyError (VStr key)))
  /\ (incomplete GROUNDING_FIELDS vs = false ->
      exists prompt,
        _prepare_message_for_llm py_repr json_loads message (VStr s) = Ok prompt).
Proof.
  intros Hs Hl Hshape. split; [|split].
  - intros Hinc. destruct (first_missing_some CARD_FIELDS vs Hshape Hinc) as (key & Hk & Hin).
    exists key. repeat split; try assumption.
    unfold _generate_paper_cards. rewrite Hs. cbn [negb loads rbind]. rewrite Hl.
    cbn [rbind py_iter]. pose proof (cards_loop_outcome py_repr vs Hshape 0%nat "") as Ho.
    rewrite Hk in Ho. now rewrite Ho.
  - intros Hinc. destruct (first_missing_some GROUNDING_FIELDS vs Hshape Hinc) as (key & Hk & Hin).
    exists key. repeat split; try assumption.
    unfold _prepare_message_for_llm. rewrite Hs. cbn [negb loads rbind]. rewrite Hl.
    cbn [rbind py_iter]. pose proof (grounding_loop_outcome py_repr vs Hshape "") as Ho.
    rewrite Hk in Ho. now rewrite Ho.
  - intros Hinc. pose proof (first_missing_none GROUNDING_FIELDS vs Hinc) as Hk.
    unfold _prepare_message_for_llm. rewrite Hs. cbn [negb loads rbind]. rewrite Hl.
    cbn [rbind py_iter]. pose proof (grounding_loop_outcome py_repr vs Hshape "") as Ho.
    rewrite Hk in Ho. destruct Ho as [content ->]. cbn [rbind]. eexists. reflexivity.
Qed.

(** Claim C8.  With collaborators whose answers depend on their
    arguments alone, a second call of [chat] with the same arguments,
    made in the state the first call left behind, returns what the first
    call returned (the same triple, or the same exception); so does a
    call made in any other state of the collaborators. *)
Theorem C8_chat_repeatable (message : string)
    (history_chat history_search : list (string * string)) (cfg : value)
    (max_results : Z) (stream : bool) (self : bot) (w : W) :
  deterministic C ->
  let call := chat py_repr json_loads message history_chat history_search
                cfg max_results stream in
  let first := run C call self w in
  let second := run C call (self_after first) (world_after first) in
  returned second = returned first
  /\ forall w' : W, returned (run C call self w') = returned first.
Proof.
  intros D. cbn zeta.
  rewrite (read_only_frame C _ (chat_read_only py_repr json_loads message history_chat
                                  history_search cfg max_results stream) self w).
  split; [|intros w']; apply (run_world_independent C _ D).
Qed.

(** Claim C9.  [chat] never assigns an attribute of the bot: after the
    call, however it ends, the bot is what it was, with the same model
    handle and the same tool handle.  (A bot has no other attribute: the
    histories are arguments of each call.) *)
Theorem C9_chat_keeps_bot (message : string)
    (history_chat history_search : list (string * string)) (cfg : value)
    (max_results : Z) (stream : bool) (self : bot) (w : W) :
  let call := chat py_repr json_loads message history_chat history_search
                cfg max_results stream in
  read_only call
  /\ self_after (run C call self w) = self
  /\ llm (self_after (run C call self w)) = llm self
  /\ tool (self_after (run C call self w)) = tool self.
Proof.
  cbn zeta. pose proof (chat_read_only py_repr json_loads (llm_cls:=llm_cls) (tool_cls:=tool_cls)
    (llm_handle:=llm_handle) (tool_handle:=tool_handle) message history_chat
                          history_search cfg max_results stream) as Hro.
  split; [exact Hro |]. rewrite (read_only_frame C _ Hro self w). repeat split.
Qed.

(** Claim C10.  The emptiness tests look at the serialized text, before
    it is decoded: the text of the empty list is itself non-empty, so
    the card rendering returns the container around no card, which is
    not the empty string, and the grounding prompt is the template
    filled with an empty grounding text, which is not the message. *)
Theorem C10_serialized_empty_list (message : string) :
  json_loads "[]" = Ok (VList []) ->
  truthy (VStr "[]") = true
  /\ _generate_paper_cards py_repr json_loads (VStr "[]") = Ok (card_container "")
  /\ card_container "" <> ""
  /\ _prepare_message_for_llm py_repr json_loads message (VStr "[]")
     = Ok (grounded_prompt "" message)
  /\ grounded_prompt "" message <> message.
Proof.
  intros Hl. split; [reflexivity |]. split; [|split; [|split]].
  - unfold _generate_paper_cards. cbn [truthy negb String.eqb]. 
    replace (truthy (VStr "[]")) with true by reflexivity. cbn [negb loads rbind].
    rewrite Hl. reflexivity.
  - discriminate.
  - unfold _prepare_message_for_llm.
    replace (truthy (VStr "[]")) with true by reflexivity. cbn [negb loads rbind].
    rewrite Hl. reflexivity.
  - intros E. apply (f_equal String.length) in E. unfold grounded_prompt in E.
    rewrite !length_append in E. simpl in E. lia.
Qed.

End Claims.

(** ** The claims on concrete inputs *)

Section Instances.
Import SampleWorld.

Lemma C1_grounding_prompt_witness :
  _prepare_message_for_llm Sample.py_repr Sample.json_loads question VNone = Ok question
  /\ _prepare_message_for_llm Sample.py_repr Sample.json_loads question (VStr serialized)
     = Ok (grounded_prompt (cat (map grounding_block records)) question).
Proof.
  split.
  - apply (C1_grounding_prompt Sample.py_repr Sample.json_loads world question VNone).
    reflexivity.
  - apply (proj1 (proj2 (C1_grounding_prompt Sample.py_repr Sample.json_loads world
                           question (VStr serialized))) serialized shelf records).
    + reflexivity.
    + vm_compute. reflexivity.
    + vm_compute. reflexivity.
    + vm_compute. reflexivity.
Defined.

Lemma C2_no_papers_no_cards_witness :
  truthy (search 0) = false
  /\ search_answers world bot1 0%nat model "ArxivTool" question [] VNone 0 intent (search 0) 2%nat
  /\ returned (run world (chat Sample.py_repr Sample.json_loads question [] [] VNone 0 true)
                 bot1 0%nat)
     = Ok ("answer: " +:+ question, "", intent).
Proof.
  assert (Hs : search_answers world bot1 0%nat model "ArxivTool" question [] VNone 0 intent
                 (search 0) 2%nat).
  { split; [reflexivity |]. split; [reflexivity |]. exists 1%nat. split; reflexivity. }
  split; [reflexivity |]. split; [exact Hs |].
  apply (proj2 (proj2 (proj2 (C2_no_papers_no_cards Sample.py_repr Sample.json_loads world))
                  (search 0) eq_refl)
           bot1 0%nat 2%nat 3%nat model "ArxivTool" question [] [] VNone 0 true intent
           ("answer: " +:+ question) Hs).
  reflexivity.
Defined.

Lemma C4_cards_in_order_witness :
  truthy (VStr serialized) = true
  /\ Sample.json_loads serialized = Ok (VList shelf)
  /\ as_papers shelf = Some records
  /\ exists blocks : list string,
       _generate_paper_cards Sample.py_repr Sample.json_loads (VStr serialized)
       = Ok (card_container (cat blocks))
       /\ length blocks = length records
       /\ forall (i : nat) (p : PaperRecord),
            records !! i = Some p -> blocks !! i = Some (card_block (i + 1) p).
Proof.
  assert (H1 : truthy (VStr serialized) = true) by (vm_compute; reflexivity).
  assert (H2 : Sample.json_loads serialized = Ok (VList shelf)) by (vm_compute; reflexivity).
  assert (H3 : as_papers shelf = Some records) by (vm_compute; reflexivity).
  split; [exact H1 |]. split; [exact H2 |]. split; [exact H3 |].
  exact (C4_cards_in_order Sample.py_repr Sample.json_loads serialized shelf records H1 H2 H3).
Defined.

Lemma C5_search_step_witness :
  search_answers world bot1 0%nat model "ArxivTool" question [] VNone 2 intent
    (VStr serialized) 2%nat
  /\ run world (_search_from_arxiv question [] VNone 2) bot1 0%nat
     = Outcome (Ok (VStr serialized, intent)) bot1 2%nat
         [ EvInvoke model [Msg system ARXIV_SEARCH_PROMPT; Msg user question] VNone;
           EvCall "ArxivTool" intent 2 ].
Proof.
  assert (Hs : search_answers world bot1 0%nat model "ArxivTool" question [] VNone 2 intent
                 (VStr serialized) 2%nat).
  { split; [reflexivity |]. split; [reflexivity |]. exists 1%nat. split; reflexivity. }
  split; [exact Hs |].
  exact (proj1 (proj2 (C5_search_step Sample.py_repr Sample.json_loads world bot1 0%nat 2%nat
                         model "ArxivTool" question [] VNone 2 intent (VStr serialized) Hs))).
Defined.

Lemma C6_unknown_engine_witness :
  resolve_engine (fst (fst (parse_llm_config (Some {[ "engine" := VStr "llama" ]}))))
  = VStr "llama"
  /\ LLM_REGISTRY !! "llama" = None
  /\ run world (__init__ Sample.py_repr LLM_REGISTRY TOOL_REGISTRY
                  (Some {[ "engine" := VStr "llama" ]})) bot0 0%nat
     = Outcome (Err (KeyError (VStr "llama"))) bot0 0%nat [EvLog "Setting up LLM..."]
  /\ resolve_engine (fst (fst (parse_llm_config None))) = VStr "openai".
Proof.
  assert (H1 : resolve_engine (fst (fst (parse_llm_config (Some {[ "engine" := VStr "llama" ]}))))
               = VStr "llama") by (vm_compute; reflexivity).
  assert (H2 : LLM_REGISTRY !! "llama" = None) by (vm_compute; reflexivity).
  split; [exact H1 |]. split; [exact H2 |]. split.
  - exact (proj1 (C6_unknown_engine Sample.py_repr LLM_REGISTRY TOOL_REGISTRY world
                    (Some {[ "engine" := VStr "llama" ]}) bot0 0%nat) "llama" H1 H2).
  - apply (proj2 (C6_unknown_engine Sample.py_repr LLM_REGISTRY TOOL_REGISTRY world
                    None bot0 0%nat)).
    now left.
Defined.

Lemma C7_missing_field_key_error_witness :
  truthy (VStr (Sample.dumps (VList [no_summary]))) = true
  /\ Sample.json_loads (Sample.dumps (VList [no_summary])) = Ok (VList [no_summary])
  /\ forallb record_shaped [no_summary] = true
  /\ incomplete CARD_FIELDS [no_summary] = true
  /\ incomplete GROUNDING_FIELDS [no_summary] = true
  /\ _generate_paper_cards Sample.py_repr Sample.json_loads
       (VStr (Sample.dumps (VList [no_summary]))) = Err (KeyError (VStr "summary"))
  /\ _prepare_message_for_llm Sample.py_repr Sample.json_loads question
       (VStr (Sample.dumps (VList [no_summary]))) = Err (KeyError (VStr "summary")).
Proof.
  assert (H1 : truthy (VStr (Sample.dumps (VList [no_summary]))) = true)
    by (vm_compute; reflexivity).
  assert (H2 : Sample.json_loads (Sample.dumps (VList [no_summary])) = Ok (VList [no_summary]))
    by (vm_compute; reflexivity).
  assert (H3 : forallb record_shaped [no_summary] = true) by reflexivity.
  assert (H4 : incomplete CARD_FIELDS [no_summary] = true) by reflexivity.
  assert (H5 : incomplete GROUNDING_FIELDS [no_summary] = true) by reflexivity.
  destruct (C7_missing_field_key_error Sample.py_repr Sample.json_loads question
              (Sample.dumps (VList [no_summary])) [no_summary] H1 H2 H3) as (Hc & Hg & _).
  destruct (Hc H4) as (k1 & _ & Hk1 & Hr1). destruct (Hg H5) as (k2 & _ & Hk2 & Hr2).
  assert (E1 : k1 = "summary") by (vm_compute in Hk1; congruence).
  assert (E2 : k2 = "summary") by (vm_compute in Hk2; congruence).
  rewrite E1 in Hr1. rewrite E2 in Hr2.
  repeat split; assumption.
Defined.

Lemma C7_counterexample :
  let papers := VStr (Sample.dumps (VList [no_link])) in
  truthy papers = true
  /\ Sample.json_loads (Sample.dumps (VList [no_link])) = Ok (VList [no_link])
  /\ lacks no_link "pdf_url" = true
  /\ _generate_paper_cards Sample.py_repr Sample.json_loads papers
     = Err (KeyError (VStr "pdf_url"))
  /\ _prepare_message_for_llm Sample.py_repr Sample.json_loads question papers
     = Ok (grounded_prompt
             ("题目：Graph Attention Networks" +:+ nl +:+ "作者：P. Velickovic" +:+ nl
                +:+ "摘要：Attention over graph neighbourhoods." +:+ nl +:+ nl)
             question)
  /\ ~ (exists e, _prepare_message_for_llm Sample.py_repr Sample.json_loads question papers
                  = Err e).
Proof.
  cbn zeta. repeat split; try (vm_compute; reflexivity).
  intros [e He]. vm_compute in He. discriminate He.
Qed.

Lemma C8_chat_repeatable_witness :
  deterministic world
  /\ let call := chat Sample.py_repr Sample.json_loads question [] [] VNone 2 true in
     let first := run world call bot1 0%nat in
     let second := run world call (self_after first) (world_after first) in
     returned second = returned first
     /\ forall w' : nat, returned (run world call bot1 w') = returned first.
Proof.
  assert (D : deterministic world) by (repeat split).
  split; [exact D |].
  exact (C8_chat_repeatable Sample.py_repr Sample.json_loads world question [] [] VNone 2 true
           bot1 0%nat D).
Defined.

Lemma C10_serialized_empty_list_witness :
  Sample.json_loads "[]" = Ok (VList [])
  /\ _generate_paper_cards Sample.py_repr Sample.json_loads (VStr "[]") = Ok (card_container "")
  /\ _prepare_message_for_llm Sample.py_repr Sample.json_loads question (VStr "[]")
     = Ok (grounded_prompt "" question).
Proof.
  assert (H : Sample.json_loads "[]" = Ok (VList [])) by reflexivity.
  destruct (C10_serialized_empty_list Sample.py_repr Sample.json_loads question H)
    as (_ & Hc & _ & Hp & _).
  split; [exact H |]. split; [exact Hc | exact Hp].
Defined.

End Instances.

(** * Further properties of the code *)

Section Construction.

Variable py_repr : value -> string.
Context {llm_cls tool_cls llm_handle tool_handle W : Type}.
Variable LLM_REGISTRY : gmap string llm_cls.
Variable TOOL_REGISTRY : gmap string tool_cls.
Variable C : @collaborators llm_cls tool_cls llm_handle tool_handle W.

(** Extra X1.  When the resolved engine and the [arxiv] tool are
    registered and the constructors and the [model] attribute answer,
    [__init__] logs, builds the model from the configured [model] and
    [model_config], logs its engine, identity and configuration, then
    builds the tool, and leaves both handles on the bot. *)
Theorem init_builds_model_then_tool (llm_config : option (gmap string value))
    (self : bot) (w w1 w2 w3 : W) (name : string) (cls : llm_cls) (tcls : tool_cls)
    (h : llm_handle) (t : tool_handle) (model_id : value) :
  let engine := fst (fst (parse_llm_config llm_config)) in
  let model := snd (fst (parse_llm_config llm_config)) in
  let model_config := snd (parse_llm_config llm_config) in
  resolve_engine engine = VStr name ->
  LLM_REGISTRY !! name = Some cls ->
  TOOL_REGISTRY !! "arxiv" = Some tcls ->
  llm_init C cls model model_config w = (Ok h, w1) ->
  llm_model C h w1 = (Ok model_id, w2) ->
  tool_init C tcls w2 = (Ok t, w3) ->
  run C (__init__ py_repr LLM_REGISTRY TOOL_REGISTRY llm_config) self w
  = Outcome (Ok tt) (Bot (Some h) (Some t)) w3
      [ EvLog "Setting up LLM...";
        EvNewLLM cls model model_config;
        EvLog ("LLM Engine: " +:+ name);
        EvModel h;
        EvLog ("Model ID/Path: " +:+ py_format py_repr model_id);
        EvLog ("Model Config: " +:+ py_format py_repr model_config);
        EvLog "LLM has been initialized.";
        EvNewTool tcls ].
Proof.
  cbn zeta. intros He Hreg Htreg Hi Hm Ht.
  unfold __init__, setup_model, log_info, set_self_llm, set_self_tool, self_llm.
  destruct (parse_llm_config llm_config) as [[engine model] model_config]. cbn [fst snd] in *.
  rewrite He. cbn [pbind run registry_lookup lift]. rewrite Hreg. cbn [pbind run lift].
  rewrite Hi. cbn [call_out pbind run llm after]. rewrite Hm. cbn [call_out pbind run after].
  rewrite Htreg. cbn [pbind run lift]. rewrite Ht. reflexivity.
Qed.

(** Extra X2.  When the [arxiv] tool is not registered, [__init__]
    raises [KeyError] only after the model has been built and assigned:
    the bot keeps the new model handle, its tool attribute is left as it
    was, and no tool is built. *)
Theorem init_without_tool_keeps_model (llm_config : option (gmap string value))
    (self : bot) (w w1 w2 : W) (name : string) (cls : llm_cls)
    (h : llm_handle) (model_id : value) :
  let engine := fst (fst (parse_llm_config llm_config)) in
  let model := snd (fst (parse_llm_config llm_config)) in
  let model_config := snd (parse_llm_config llm_config) in
  resolve_engine engine = VStr name ->
  LLM_REGISTRY !! name = Some cls ->
  TOOL_REGISTRY !! "arxiv" = None ->
  llm_init C cls model model_config w = (Ok h, w1) ->
  llm_model C h w1 = (Ok model_id, w2) ->
  let o := run C (__init__ py_repr LLM_REGISTRY TOOL_REGISTRY llm_config) self w in
  returned o = Err (KeyError (VStr "arxiv"))
  /\ self_after o = Bot (Some h) (tool self)
  /\ world_after o = w2
  /\ In (EvNewLLM cls model model_config) (trace o)
  /\ (forall tcls, ~ In (EvNewTool tcls) (trace o)).
Proof.
  cbn zeta. intros He Hreg Htreg Hi Hm.
  unfold __init__, setup_model, log_info, set_self_llm, set_self_tool, self_llm.
  destruct (parse_llm_config llm_config) as [[engine model] model_config]. cbn [fst snd] in *.
  rewrite He. cbn [pbind run registry_lookup lift]. rewrite Hreg. cbn [pbind run lift].
  rewrite Hi. cbn [call_out pbind run llm after]. rewrite Hm. cbn [call_out pbind run after].
  rewrite Htreg. cbn [pbind run lift after returned self_after world_after trace tool].
  repeat split.
  - right; now left.
  - intros tcls Hin. cbn [In] in Hin.
    repeat (destruct Hin as [Hin | Hin]; [discriminate Hin |]). exact Hin.
Qed.

(** Extra X3.  When the model constructor raises, [__init__] raises the
    same exception right after the first log line: the bot is left as
    it was and neither the tool registry nor the tool is touched. *)
Theorem init_constructor_error (llm_config : option (gmap string value))
    (self : bot) (w w1 : W) (name : string) (cls : llm_cls) (e : exn) :
  let engine := fst (fst (parse_llm_config llm_config)) in
  let model := snd (fst (parse_llm_config llm_config)) in
  let model_config := snd (parse_llm_config llm_config) in
  resolve_engine engine = VStr name ->
  LLM_REGISTRY !! name = Some cls ->
  llm_init C cls model model_config w = (Err e, w1) ->
  run C (__init__ py_repr LLM_REGISTRY TOOL_REGISTRY llm_config) self w
  = Outcome (Err e) self w1 [EvLog "Setting up LLM..."; EvNewLLM cls model model_config].
Proof.
  cbn zeta. intros He Hreg Hi.
  unfold __init__, setup_model, log_info, set_self_llm, set_self_tool, self_llm.
  destruct (parse_llm_config llm_config) as [[engine model] model_config]. cbn [fst snd] in *.
  rewrite He. cbn [pbind run registry_lookup lift]. rewrite Hreg. cbn [pbind run lift].
  rewrite Hi. reflexivity.
Qed.

(** Extra X4.  A configuration without [engine], or with [engine] bound
    to [None], is constructed exactly as the same configuration with
    [engine] bound to [openai]. *)
Theorem init_default_engine (c : gmap string value) :
  c !! "engine" = None \/ c !! "engine" = Some VNone ->
  @__init__ py_repr llm_cls tool_cls llm_handle tool_handle LLM_REGISTRY TOOL_REGISTRY (Some c)
  = __init__ py_repr LLM_REGISTRY TOOL_REGISTRY (Some (<["engine" := VStr "openai"]> c)).
Proof.
  intros H. unfold __init__, parse_llm_config, config_get.
  rewrite lookup_insert_eq, !lookup_insert_ne by discriminate.
  assert (E : default VNone (c !! "engine") = VNone) by (destruct H as [-> | ->]; reflexivity).
  rewrite E. reflexivity.
Qed.

(** Extra X5.  Whatever happens in [setup_model], it never assigns
    [self.tool], and it assigns [self.llm] exactly when the engine is
    registered and the constructor returned: a later failure (reading
    the [model] attribute) leaves the new handle in place, an earlier
    one leaves the bot untouched. *)
Theorem setup_model_effect_on_bot (llm_engine model model_config : value) (self : bot) (w : W) :
  self_after (run C (setup_model py_repr LLM_REGISTRY llm_engine model model_config) self w)
  = match registry_lookup LLM_REGISTRY (resolve_engine llm_engine) with
    | Ok cls =>
        match llm_init C cls model model_config w with
        | (Ok h, _) => Bot (Some h) (tool self)
        | (Err _, _) => self
        end
    | Err _ => self
    end.
Proof.
  unfold setup_model, log_info, set_self_llm, self_llm. cbn [pbind run after self_after].
  destruct (registry_lookup LLM_REGISTRY (resolve_engine llm_engine)) as [cls|e];
    [|reflexivity].
  cbn [lift pbind run]. destruct (llm_init C cls model model_config w) as [[h|e] w1];
    [|reflexivity].
  cbn [call_out pbind run llm after self_after].
  destruct (llm_model C h w1) as [[v|e] w2]; reflexivity.
Qed.

End Construction.

Section Formats.

Variable py_repr : value -> string.
Variable json_loads : string -> result value.

Lemma container_not_empty (content : value) :
  format py_repr PAPER_CARD_MARKDOWN [("content", content)] <> Ok "".
Proof. cbn. discriminate. Qed.

Lemma template_longer (content message : string) :
  format py_repr ARXIV_CHAT_TEMPLATE [("content", VStr content); ("message", VStr message)]
  <> Ok message.
Proof.
  cbn [format dict_get String.eqb Ascii.eqb Bool.eqb rbind ARXIV_CHAT_TEMPLATE py_format].
  intros E. injection E as E. apply (f_equal String.length) in E.
  rewrite !length_append in E. simpl in E. lia.
Qed.

(** Extra X12.  The card rendering returns the empty string exactly on
    an empty or absent (falsy) papers value, and the grounding prompt
    equals the message exactly on such a value. *)
Theorem outputs_mark_emptiness (message : string) (papers : value) :
  (_generate_paper_cards py_repr json_loads papers = Ok "" <-> truthy papers = false)
  /\ (_prepare_message_for_llm py_repr json_loads message papers = Ok message
      <-> truthy papers = false).
Proof.
  unfold _generate_paper_cards, _prepare_message_for_llm.
  destruct (truthy papers); cbn [negb]; [|now split].
  split; (split; [|discriminate]); intros H; exfalso.
  - destruct (loads json_loads papers) as [decoded|e]; [|discriminate]. cbn [rbind] in H.
    destruct (py_iter decoded) as [items|e]; [|discriminate]. cbn [rbind] in H.
    destruct (cards_loop py_repr 0 items "") as [out|e]; [|discriminate]. cbn [rbind] in H.
    exact (container_not_empty _ H).
  - destruct (loads json_loads papers) as [decoded|e]; [|discriminate]. cbn [rbind] in H.
    destruct (py_iter decoded) as [items|e]; [|discriminate]. cbn [rbind] in H.
    destruct (grounding_loop py_repr items "") as [out|e]; [|discriminate]. cbn [rbind] in H.
    exact (template_longer _ _ H).
Qed.

(** Extra X13.  On a non-empty papers value that is not text (a list
    already decoded, say) both formatters raise [TypeError]; on a text
    that [json.loads] rejects both raise that decoding error. *)
Theorem formatters_need_serialized_text (message : string) (papers : value) :
  truthy papers = true ->
  ((forall s, papers <> VStr s) ->
   _generate_paper_cards py_repr json_loads papers = Err TypeError
   /\ _prepare_message_for_llm py_repr json_loads message papers = Err TypeError)
  /\ (forall (s : string) (e : exn),
        papers = VStr s ->
        json_loads s = Err e ->
        _generate_paper_cards py_repr json_loads papers = Err e
        /\ _prepare_message_for_llm py_repr json_loads message papers = Err e).
Proof.
  intros Ht. unfold _generate_paper_cards, _prepare_message_for_llm. rewrite Ht. cbn [negb].
  split.
  - intros Hn. destruct papers; try (split; reflexivity). now destruct (Hn s).
  - intros s e -> He. cbn [loads]. rewrite He. split; reflexivity.
Qed.

(** Extra X14.  When the text decodes to something other than a list:
    a number, a boolean or [null] makes both formatters raise
    [TypeError]; so does a non-empty object or a non-empty string (their
    items are texts, which cannot be indexed by a field name); an empty
    object or string is treated like an empty list. *)
Theorem decoded_value_not_a_list (message s : string) (decoded : value) :
  truthy (VStr s) = true ->
  json_loads s = Ok decoded ->
  let cards := _generate_paper_cards py_repr json_loads (VStr s) in
  let prompt := _prepare_message_for_llm py_repr json_loads message (VStr s) in
  match decoded with
  | VList _ => True
  | VNone | VBool _ | VInt _ => cards = Err TypeError /\ prompt = Err TypeError
  | VDict [] => cards = Ok (card_container "") /\ prompt = Ok (grounded_prompt "" message)
  | VDict (_ :: _) => cards = Err TypeError /\ prompt = Err TypeError
  | VStr text =>
      match str_chars text with
      | [] => cards = Ok (card_container "") /\ prompt = Ok (grounded_prompt "" message)
      | _ :: _ => cards = Err TypeError /\ prompt = Err TypeError
      end
  end.
Proof.
  intros Ht Hl. cbn zeta. unfold _generate_paper_cards, _prepare_message_for_llm.
  rewrite Ht. cbn [negb loads]. rewrite Hl. cbn [rbind].
  destruct decoded as [| | |text| |[|kv kvs]]; try exact I; try (split; reflexivity).
  cbn [py_iter]. destruct (str_chars text); split; reflexivity.
Qed.

Lemma expect_strs_map (l : list string) : expect_strs (map VStr l) = Ok l.
Proof.
  induction l as [|s l IH]; [reflexivity |]. cbn [map expect_strs]. now rewrite IH.
Qed.

(** Extra X15.  When the [authors] field of a record is one text
    instead of a list of texts, both formatters join its characters:
    the authors line holds the characters of that text separated by
    commas. *)
Theorem authors_text_is_split (message s : string) (kvs : list (string * value))
    (t a abstract u : string) :
  truthy (VStr s) = true ->
  json_loads s = Ok (VList [VDict kvs]) ->
  dict_get kvs "title" = Some (VStr t) ->
  dict_get kvs "authors" = Some (VStr a) ->
  dict_get kvs "summary" = Some (VStr abstract) ->
  dict_get kvs "pdf_url" = Some (VStr u) ->
  let paper := {| title := t; authors := str_chars a; summary := abstract; pdf_url := u |} in
  _generate_paper_cards py_repr json_loads (VStr s) = Ok (card_container (card_block 1 paper))
  /\ _prepare_message_for_llm py_repr json_loads message (VStr s)
     = Ok (grounded_prompt (grounding_block paper) message).
Proof.
  intros Ht Hl Ht' Ha Hs Hu. cbn zeta.
  unfold _generate_paper_cards, _prepare_message_for_llm.
  rewrite Ht. cbn [negb loads]. rewrite Hl. cbn [rbind py_iter cards_loop grounding_loop].
  unfold paper_card, grounding_lines, getitem, str_join. rewrite Ht', Ha, Hs, Hu.
  cbn [rbind py_iter]. rewrite expect_strs_map. split; [reflexivity |].
  simpl. unfold grounded_prompt, grounding_block. cbn [title authors summary pdf_url].
  rewrite !append_assoc. reflexivity.
Qed.

Lemma strs_only_false (l : list value) :
  strs_only l = false -> expect_strs l = Err TypeError.
Proof.
  induction l as [|v l IH]; [discriminate |].
  destruct v; try reflexivity. cbn [strs_only expect_strs]. intros H. now rewrite (IH H).
Qed.

(** Extra X16.  When the first record has a title and an [authors]
    field that is a number, a boolean, [null] or a list with an item
    that is not text, both formatters raise [TypeError], whatever the
    other fields and the other records are. *)
Theorem authors_not_text (message s : string) (kvs : list (string * value))
    (rest : list value) (t a : value) :
  truthy (VStr s) = true ->
  json_loads s = Ok (VList (VDict kvs :: rest)) ->
  dict_get kvs "title" = Some t ->
  dict_get kvs "authors" = Some a ->
  match a with
  | VList l => strs_only l = false
  | VNone | VBool _ | VInt _ => True
  | VStr _ | VDict _ => False
  end ->
  _generate_paper_cards py_repr json_loads (VStr s) = Err TypeError
  /\ _prepare_message_for_llm py_repr json_loads message (VStr s) = Err TypeError.
Proof.
  intros Ht Hl Ht' Ha Hbad.
  unfold _generate_paper_cards, _prepare_message_for_llm.
  rewrite Ht. cbn [negb loads]. rewrite Hl. cbn [rbind py_iter cards_loop grounding_loop].
  unfold paper_card, grounding_lines, getitem, str_join. rewrite Ht', Ha.
  cbn [rbind].
  destruct a as [| | | |l|]; try contradiction; try (split; reflexivity).
  cbn [py_iter rbind]. rewrite (strs_only_false l Hbad). split; reflexivity.
Qed.

Lemma cards_loop_app (vs1 vs2 : list value) :
  forall (index : nat) (acc : string),
    cards_loop py_repr index (vs1 ++ vs2) acc
    = rbind (cards_loop py_repr index vs1 acc)
        (cards_loop py_repr (index + length vs1) vs2).
Proof.
  induction vs1 as [|v vs1 IH]; intros index acc.
  - cbn [app cards_loop rbind length]. now rewrite Nat.add_0_r.
  - cbn [app cards_loop length]. destruct (paper_card py_repr index v) as [card|e];
      [|reflexivity].
    cbn [rbind]. rewrite IH. now rewrite Nat.add_succ_r.
Qed.

Lemma grounding_loop_app (vs1 vs2 : list value) :
  forall content : string,
    grounding_loop py_repr (vs1 ++ vs2) content
    = rbind (grounding_loop py_repr vs1 content) (grounding_loop py_repr vs2).
Proof.
  induction vs1 as [|v vs1 IH]; intros content.
  - reflexivity.
  - cbn [app grounding_loop]. destruct (grounding_lines py_repr content v) as [c|e];
      [|reflexivity].
    cbn [rbind]. apply IH.
Qed.

(** Extra X17.  An error raised on a list of papers is raised again on
    every list that extends it: papers appended after a failing one do
    not change the outcome of either formatter. *)
Theorem first_error_wins (message s1 s2 : string) (vs1 vs2 : list value) (e : exn) :
  truthy (VStr s1) = true ->
  truthy (VStr s2) = true ->
  json_loads s1 = Ok (VList vs1) ->
  json_loads s2 = Ok (VList (vs1 ++ vs2)) ->
  (_generate_paper_cards py_repr json_loads (VStr s1) = Err e ->
   _generate_paper_cards py_repr json_loads (VStr s2) = Err e)
  /\ (_prepare_message_for_llm py_repr json_loads message (VStr s1) = Err e ->
      _prepare_message_for_llm py_repr json_loads message (VStr s2) = Err e).
Proof.
  intros Ht1 Ht2 Hl1 Hl2. unfold _generate_paper_cards, _prepare_message_for_llm.
  rewrite Ht1, Ht2. cbn [negb loads]. rewrite Hl1, Hl2. cbn [rbind py_iter].
  rewrite cards_loop_app, grounding_loop_app. split.
  - destruct (cards_loop py_repr 0 vs1 "") as [out|e']; cbn [rbind]; [|trivial].
    intros H. exfalso. cbn in H. discriminate H.
  - destruct (grounding_loop py_repr vs1 "") as [out|e']; cbn [rbind]; [|trivial].
    intros H. exfalso. cbn in H. discriminate H.
Qed.

End Formats.

Section Calls.

Variable py_repr : value -> string.
Variable json_loads : string -> result value.
Context {llm_cls tool_cls llm_handle tool_handle W : Type}.
Variable C : @collaborators llm_cls tool_cls llm_handle tool_handle W.

Lemma title_line_ok (title : value) :
  exists line, format py_repr TITLE_LINE [("title", title)] = Ok line.
Proof. eexists. reflexivity. Qed.

Lemma paper_card_grounding (index : nat) (paper : value) (card content : string) :
  paper_card py_repr index paper = Ok card ->
  exists content', grounding_lines py_repr content paper = Ok content'.
Proof.
  unfold paper_card, grounding_lines.
  destruct (getitem paper "title") as [t|e]; [|discriminate]. cbn [rbind].
  destruct (getitem paper "authors") as [a|e]; [|discriminate]. cbn [rbind].
  destruct (str_join ", " a) as [names|e]; [|discriminate]. cbn [rbind].
  destruct (getitem paper "summary") as [s|e]; [|discriminate]. cbn [rbind].
  intros _. eexists. reflexivity.
Qed.

Lemma cards_loop_grounding (papers : list value) :
  forall (index : nat) (acc out content : string),
    cards_loop py_repr index papers acc = Ok out ->
    exists content', grounding_loop py_repr papers content = Ok content'.
Proof.
  induction papers as [|paper papers IH]; intros index acc out content H.
  - now exists content.
  - cbn [cards_loop] in H. cbn [grounding_loop].
    destruct (paper_card py_repr index paper) as [card|e] eqn:E; [|discriminate].
    destruct (paper_card_grounding index paper card content E) as [content' ->].
    cbn [rbind] in *. exact (IH (S index) _ out content' H).
Qed.

(** Extra X6.  Whenever the card rendering succeeds on a papers value,
    the grounding prompt can be prepared from it as well: in [chat] the
    second formatter never is the one that fails. *)
Theorem cards_succeed_then_prompt_succeeds (message : string) (papers : value) (cards : string) :
  _generate_paper_cards py_repr json_loads papers = Ok cards ->
  exists prompt, _prepare_message_for_llm py_repr json_loads message papers = Ok prompt.
Proof.
  unfold _generate_paper_cards, _prepare_message_for_llm.
  destruct (truthy papers); cbn [negb]; [|intros _; now exists message].
  destruct (loads json_loads papers) as [decoded|e]; [|discriminate]. cbn [rbind].
  destruct (py_iter decoded) as [items|e]; [|discriminate]. cbn [rbind].
  destruct (cards_loop py_repr 0 items "") as [out|e] eqn:E; [|discriminate].
  destruct (cards_loop_grounding items 0%nat "" out "" E) as [content ->].
  intros _. cbn [rbind]. eexists. reflexivity.
Qed.

(** Extra X7.  When the search-intent model call raises, [chat] raises
    the same exception and the tool is never called; when the tool
    raises, [chat] raises the same exception and no second model call is
    made.  The bot is unchanged in both cases. *)
Theorem chat_search_failure (self : bot) (w : W) (h : llm_handle) (t : tool_handle)
    (message : string) (history_chat history_search : list (string * string))
    (cfg : value) (max_results : Z) (stream : bool) :
  llm self = Some h ->
  tool self = Some t ->
  let call := chat py_repr json_loads message history_chat history_search
                cfg max_results stream in
  let asked := EvInvoke h (chat_messages message history_search (Some ARXIV_SEARCH_PROMPT)) cfg in
  match llm_invoke C h (chat_messages message history_search (Some ARXIV_SEARCH_PROMPT)) cfg w with
  | (Err e, w1) => run C call self w = Outcome (Err e) self w1 [asked]
  | (Ok raw, w1) =>
      forall (e : exn) (w2 : W),
        tool_call C t raw max_results w1 = (Err e, w2) ->
        run C call self w = Outcome (Err e) self w2 [asked; EvCall t raw max_results]
  end.
Proof.
  intros Hl Ht. cbn zeta. unfold chat, _search_from_arxiv, _chat, self_llm, self_tool.
  cbn [pbind run]. rewrite Hl. cbn [pbind run].
  destruct (llm_invoke C h _ cfg w) as [[raw|e] w1]; [|reflexivity].
  intros e w2 Hc. cbn [call_out pbind run]. rewrite Ht. cbn [pbind run]. rewrite Hc.
  reflexivity.
Qed.

(** Extra X8.  When the card rendering raises on the tool's answer,
    [chat] raises the same exception after the search step: the
    answering model call is never made. *)
Theorem chat_cards_failure (self : bot) (w w2 : W) (h : llm_handle) (t : tool_handle)
    (message : string) (history_chat history_search : list (string * string))
    (cfg : value) (max_results : Z) (stream : bool) (raw : string) (papers : value)
    (e : exn) :
  search_answers C self w h t message history_search cfg max_results raw papers w2 ->
  _generate_paper_cards py_repr json_loads papers = Err e ->
  run C (chat py_repr json_loads message history_chat history_search cfg max_results stream)
      self w
  = Outcome (Err e) self w2
      [ EvInvoke h (chat_messages message history_search (Some ARXIV_SEARCH_PROMPT)) cfg;
        EvCall t raw max_results ].
Proof.
  intros (Hl & Ht & w1 & Hi & Hc) Hcards.
  unfold chat, _search_from_arxiv, _chat, self_llm, self_tool.
  cbn [pbind run]. rewrite Hl. cbn [pbind run]. rewrite Hi. cbn [call_out pbind run].
  rewrite Ht. cbn [pbind run]. rewrite Hc. cbn [call_out pbind run].
  rewrite Hcards. reflexivity.
Qed.

(** Extra X9.  When the answering model call raises, [chat] raises the
    same exception: the cards and the raw intent text already computed
    are not returned. *)
Theorem chat_answer_failure (self : bot) (w w2 w3 : W) (h : llm_handle) (t : tool_handle)
    (message : string) (history_chat history_search : list (string * string))
    (cfg : value) (max_results : Z) (stream : bool) (raw : string) (papers : value)
    (cards prompt : string) (e : exn) :
  search_answers C self w h t message history_search cfg max_results raw papers w2 ->
  _generate_paper_cards py_repr json_loads papers = Ok cards ->
  _prepare_message_for_llm py_repr json_loads message papers = Ok prompt ->
  model_call C stream h (chat_messages prompt history_chat (Some ARXIV_SYSTEM_PROMPT)) cfg w2
    = (Err e, w3) ->
  run C (chat py_repr json_loads message history_chat history_search cfg max_results stream)
      self w
  = Outcome (Err e) self w3
      [ EvInvoke h (chat_messages message history_search (Some ARXIV_SEARCH_PROMPT)) cfg;
        EvCall t raw max_results;
        model_event stream h (chat_messages prompt history_chat (Some ARXIV_SYSTEM_PROMPT)) cfg ].
Proof.
  intros (Hl & Ht & w1 & Hi & Hc) Hcards Hprompt Hm.
  unfold chat, _search_from_arxiv, _chat, self_llm, self_tool.
  cbn [pbind run]. rewrite Hl. cbn [pbind run]. rewrite Hi. cbn [call_out pbind run].
  rewrite Ht. cbn [pbind run]. rewrite Hc. cbn [call_out pbind run].
  rewrite Hcards, Hprompt. cbn [lift pbind run]. rewrite Hl.
  unfold model_call, model_event in *. destruct stream; cbn [pbind run]; rewrite Hm; reflexivity.
Qed.

(** Extra X10.  Every run of [chat], however it ends, consists of at
    most three collaborator calls in a fixed order: a non-streaming
    model call, then the tool call, then one more model call; it logs
    nothing and builds nothing. *)
Theorem chat_makes_at_most_three_calls (self : bot) (w : W)
    (message : string) (history_chat history_search : list (string * string))
    (cfg : value) (max_results : Z) (stream : bool) :
  chat_shaped
    (trace (run C (chat py_repr json_loads message history_chat history_search
                     cfg max_results stream) self w))
  = true.
Proof.
  unfold chat, _search_from_arxiv, _chat, self_llm, self_tool. cbn [pbind run].
  destruct (llm self) as [h|] eqn:Hl; [|reflexivity]. cbn [pbind run].
  destruct (llm_invoke C h _ cfg w) as [[raw|e] w1]; [|reflexivity].
  cbn [call_out pbind run]. destruct (tool self) as [t|]; [|reflexivity]. cbn [pbind run].
  destruct (tool_call C t raw max_results w1) as [[papers|e] w2]; [|reflexivity].
  cbn [call_out pbind run].
  destruct (_generate_paper_cards py_repr json_loads papers) as [cards|e]; [|reflexivity].
  cbn [lift pbind run].
  destruct (_prepare_message_for_llm py_repr json_loads message papers) as [prompt|e];
    [|reflexivity].
  cbn [lift pbind run]. rewrite Hl. destruct stream; cbn [pbind run].
  - destruct (llm_invoke_stream C h (chat_messages prompt history_chat (Some ARXIV_SYSTEM_PROMPT))
                cfg w2) as [[a|e] w3]; reflexivity.
  - destruct (llm_invoke C h (chat_messages prompt history_chat (Some ARXIV_SYSTEM_PROMPT))
                cfg w2) as [[a|e] w3]; reflexivity.
Qed.

(** Extra X11.  Both fixed prompts are non-empty, so each of the two
    model calls of [chat] receives [2 * len(history) + 2] messages, the
    first of which is the system message with that prompt and the only
    system message. *)
Theorem model_calls_start_with_system_prompt (message : string)
    (history : list (string * string)) :
  let searching := chat_messages message history (Some ARXIV_SEARCH_PROMPT) in
  let answering := chat_messages message history (Some ARXIV_SYSTEM_PROMPT) in
  head searching = Some (Msg system ARXIV_SEARCH_PROMPT)
  /\ head answering = Some (Msg system ARXIV_SYSTEM_PROMPT)
  /\ length searching = (2 * length history + 2)%nat
  /\ length answering = (2 * length history + 2)%nat
  /\ (forall m, In m (tail searching) -> msg_role m <> system)
  /\ (forall m, In m (tail answering) -> msg_role m <> system).
Proof.
  cbn zeta. rewrite !chat_messages_eq.
  replace (nonempty (Some ARXIV_SEARCH_PROMPT)) with true by reflexivity.
  replace (nonempty (Some ARXIV_SYSTEM_PROMPT)) with true by reflexivity.
  cbn [default app head tail]. rewrite !length_cons, !length_app, history_messages_length.
  assert (Hrole : forall m, In m (history_messages history ++ [Msg user message]) ->
                            msg_role m <> system).
  { intros m Hin. apply in_app_iff in Hin as [Hin | [<- | []]]; [|discriminate].
    unfold history_messages in Hin. apply in_flat_map in Hin as (turn & _ & Hm).
    destruct Hm as [<- | [<- | []]]; discriminate. }
  repeat split; try (simpl; lia); exact Hrole.
Qed.

End Calls.

Section Interference.

Variable py_repr : value -> string.
Variable json_loads : string -> result value.
Context {llm_cls tool_cls llm_handle tool_handle W : Type}.
Variable C : @collaborators llm_cls tool_cls llm_handle tool_handle W.

(** Extra X18.  With collaborators whose answers depend on their
    arguments alone, the cards and the raw intent text returned by
    [chat] do not depend on the chat history nor on the stream flag. *)
Theorem cards_ignore_chat_history (self : bot) (w w' : W) (message : string)
    (history_search history_chat history_chat' : list (string * string)) (cfg : value)
    (max_results : Z) (stream stream' : bool)
    (answer cards query answer' cards' query' : string) :
  deterministic C ->
  returned (run C (chat py_repr json_loads message history_chat history_search
                     cfg max_results stream) self w)
  = Ok (answer, cards, query) ->
  returned (run C (chat py_repr json_loads message history_chat' history_search
                     cfg max_results stream') self w')
  = Ok (answer', cards', query') ->
  cards' = cards /\ query' = query.
Proof.
  intros (_ & _ & D3 & _ & _ & D6).
  unfold chat, _search_from_arxiv, _chat, self_llm, self_tool. cbn [pbind run].
  destruct (llm self) as [h|] eqn:Hl; [|discriminate]. cbn [pbind run].
  pose proof (D3 h (chat_messages message history_search (Some ARXIV_SEARCH_PROMPT)) cfg w w')
    as E3.
  destruct (llm_invoke C h _ cfg w) as [[raw|e] w1]; [|discriminate].
  destruct (llm_invoke C h _ cfg w') as [[raw'|e'] w1']; [|discriminate].
  cbn [fst] in E3. injection E3 as <-. cbn [call_out pbind run].
  destruct (tool self) as [t|]; [|discriminate]. cbn [pbind run].
  pose proof (D6 t raw max_results w1 w1') as E6.
  destruct (tool_call C t raw max_results w1) as [[papers|e] w2]; [|discriminate].
  destruct (tool_call C t raw max_results w1') as [[papers'|e'] w2']; [|discriminate].
  cbn [fst] in E6. injection E6 as <-. cbn [call_out pbind run].
  destruct (_generate_paper_cards py_repr json_loads papers) as [c|e]; [|discriminate].
  cbn [lift pbind run].
  destruct (_prepare_message_for_llm py_repr json_loads message papers) as [prompt|e];
    [|discriminate].
  cbn [lift pbind run]. rewrite Hl.
  assert (Hfinal : forall (s : bool) (hc : list (string * string)) (u : W) a k q,
            returned
              (after (EvInvoke h (chat_messages message history_search
                                    (Some ARXIV_SEARCH_PROMPT)) cfg)
                 (after (EvCall t raw max_results)
                    (run C
                       (pbind
                          (if s
                           then InvokeStream h
                                  (chat_messages prompt hc (Some ARXIV_SYSTEM_PROMPT)) cfg Ret
                           else Invoke h
                                  (chat_messages prompt hc (Some ARXIV_SYSTEM_PROMPT)) cfg Ret)
                          (fun response => Ret (response, c, raw))) self u)))
            = Ok (a, k, q) -> k = c /\ q = raw).
  { intros s hc u a k q. destruct s; cbn [pbind run].
    - destruct (llm_invoke_stream C h _ cfg u) as [[r|e] u']; cbn; [|discriminate].
      intros H. injection H as _ <- <-. now split.
    - destruct (llm_invoke C h _ cfg u) as [[r|e] u']; cbn; [|discriminate].
      intros H. injection H as _ <- <-. now split. }
  intros H1 H2. apply Hfinal in H1 as [-> ->]. apply Hfinal in H2 as [-> ->]. now split.
Qed.

End Interference.

(** ** Further properties on concrete inputs *)

Section MoreInstances.
Import SampleWorld Faulty.

Lemma init_builds_model_then_tool_witness :
  run world (__init__ Sample.py_repr LLM_REGISTRY TOOL_REGISTRY (Some config)) bot0 0%nat
  = Outcome (Ok tt) (Bot (Some ("OpenAILLM", VStr "gpt-4o")) (Some "ArxivTool")) 2%nat
      [ EvLog "Setting up LLM...";
        EvNewLLM "OpenAILLM" (VStr "gpt-4o") (VDict [("temperature", VInt 0)]);
        EvLog "LLM Engine: openai";
        EvModel ("OpenAILLM", VStr "gpt-4o");
        EvLog "Model ID/Path: gpt-4o";
        EvLog "Model Config: {'temperature': 0}";
        EvLog "LLM has been initialized.";
        EvNewTool "ArxivTool" ].
Proof.
  refine (init_builds_model_then_tool Sample.py_repr LLM_REGISTRY TOOL_REGISTRY world
            (Some config) bot0 0%nat 1%nat 1%nat 2%nat "openai" "OpenAILLM" "ArxivTool"
            ("OpenAILLM", VStr "gpt-4o") "ArxivTool" (VStr "gpt-4o") _ _ _ _ _ _);
    vm_compute; reflexivity.
Defined.

Lemma init_without_tool_keeps_model_witness :
  let o := run world (__init__ Sample.py_repr LLM_REGISTRY ∅ (Some config)) bot0 0%nat in
  returned o = Err (KeyError (VStr "arxiv"))
  /\ self_after o = Bot (Some ("OpenAILLM", VStr "gpt-4o")) None.
Proof.
  destruct (init_without_tool_keeps_model Sample.py_repr LLM_REGISTRY
              (∅ : gmap string string) world
              (Some config) bot0 0%nat 1%nat 1%nat "openai" "OpenAILLM"
              ("OpenAILLM", VStr "gpt-4o") (VStr "gpt-4o"))
    as (H1 & H2 & _); try (vm_compute; reflexivity).
  split; [exact H1 | exact H2].
Defined.

Lemma init_constructor_error_witness :
  run constructor_down (__init__ Sample.py_repr LLM_REGISTRY TOOL_REGISTRY (Some config))
    bot0 0%nat
  = Outcome (Err timeout) bot0 1%nat
      [ EvLog "Setting up LLM...";
        EvNewLLM "OpenAILLM" (VStr "gpt-4o") (VDict [("temperature", VInt 0)]) ].
Proof.
  refine (init_constructor_error Sample.py_repr LLM_REGISTRY TOOL_REGISTRY constructor_down
            (Some config) bot0 0%nat 1%nat "openai" "OpenAILLM" timeout _ _ _);
    vm_compute; reflexivity.
Defined.

Lemma init_default_engine_witness :
  @__init__ Sample.py_repr string string (string * value) string LLM_REGISTRY TOOL_REGISTRY
    (Some ∅)
  = __init__ Sample.py_repr LLM_REGISTRY TOOL_REGISTRY (Some (<["engine" := VStr "openai"]> ∅)).
Proof.
  apply (init_default_engine Sample.py_repr LLM_REGISTRY TOOL_REGISTRY ∅).
  left. vm_compute. reflexivity.
Defined.

Lemma cards_succeed_then_prompt_succeeds_witness :
  _generate_paper_cards Sample.py_repr Sample.json_loads (VStr serialized)
  = Ok (card_container (cat (card_blocks records)))
  /\ exists prompt,
       _prepare_message_for_llm Sample.py_repr Sample.json_loads question (VStr serialized)
       = Ok prompt.
Proof.
  assert (H : _generate_paper_cards Sample.py_repr Sample.json_loads (VStr serialized)
              = Ok (card_container (cat (card_blocks records)))) by (vm_compute; reflexivity).
  split; [exact H |].
  exact (cards_succeed_then_prompt_succeeds Sample.py_repr Sample.json_loads question
           (VStr serialized) _ H).
Defined.

Lemma chat_search_failure_witness :
  llm bot1 = Some model
  /\ tool bot1 = Some "ArxivTool"
  /\ run model_down (chat Sample.py_repr Sample.json_loads question [] [] VNone 2 true)
       bot1 0%nat
     = Outcome (Err timeout) bot1 1%nat
         [EvInvoke model (chat_messages question [] (Some ARXIV_SEARCH_PROMPT)) VNone]
  /\ run tool_down (chat Sample.py_repr Sample.json_loads question [] [] VNone 2 true)
       bot1 0%nat
     = Outcome (Err timeout) bot1 2%nat
         [ EvInvoke model (chat_messages question [] (Some ARXIV_SEARCH_PROMPT)) VNone;
           EvCall "ArxivTool" intent 2 ].
Proof.
  split; [reflexivity |]. split; [reflexivity |]. split.
  - exact (chat_search_failure Sample.py_repr Sample.json_loads model_down bot1 0%nat model
             "ArxivTool" question [] [] VNone 2 true eq_refl eq_refl).
  - exact (chat_search_failure Sample.py_repr Sample.json_loads tool_down bot1 0%nat model
             "ArxivTool" question [] [] VNone 2 true eq_refl eq_refl timeout 2%nat eq_refl).
Defined.

Lemma chat_cards_failure_witness :
  search_answers broken_tool bot1 0%nat model "ArxivTool" question [] VNone 2 intent
    (VStr (Sample.dumps (VList [no_link]))) 2%nat
  /\ _generate_paper_cards Sample.py_repr Sample.json_loads
       (VStr (Sample.dumps (VList [no_link]))) = Err (KeyError (VStr "pdf_url"))
  /\ run broken_tool (chat Sample.py_repr Sample.json_loads question [] [] VNone 2 true)
       bot1 0%nat
     = Outcome (Err (KeyError (VStr "pdf_url"))) bot1 2%nat
         [ EvInvoke model (chat_messages question [] (Some ARXIV_SEARCH_PROMPT)) VNone;
           EvCall "ArxivTool" intent 2 ].
Proof.
  assert (Hs : search_answers broken_tool bot1 0%nat model "ArxivTool" question [] VNone 2
                 intent (VStr (Sample.dumps (VList [no_link]))) 2%nat).
  { split; [reflexivity |]. split; [reflexivity |]. exists 1%nat. split; reflexivity. }
  assert (Hc : _generate_paper_cards Sample.py_repr Sample.json_loads
                 (VStr (Sample.dumps (VList [no_link]))) = Err (KeyError (VStr "pdf_url")))
    by (vm_compute; reflexivity).
  split; [exact Hs |]. split; [exact Hc |].
  exact (chat_cards_failure Sample.py_repr Sample.json_loads broken_tool bot1 0%nat 2%nat
           model "ArxivTool" question [] [] VNone 2 true intent _ _ Hs Hc).
Defined.

Lemma chat_answer_failure_witness :
  search_answers stream_down bot1 0%nat model "ArxivTool" question [] VNone 0 intent
    VNone 2%nat
  /\ run stream_down (chat Sample.py_repr Sample.json_loads question [] [] VNone 0 true)
       bot1 0%nat
     = Outcome (Err timeout) bot1 3%nat
         [ EvInvoke model (chat_messages question [] (Some ARXIV_SEARCH_PROMPT)) VNone;
           EvCall "ArxivTool" intent 0;
           EvInvokeStream model (chat_messages question [] (Some ARXIV_SYSTEM_PROMPT)) VNone ].
Proof.
  assert (Hs : search_answers stream_down bot1 0%nat model "ArxivTool" question [] VNone 0
                 intent VNone 2%nat).
  { split; [reflexivity |]. split; [reflexivity |]. exists 1%nat. split; reflexivity. }
  split; [exact Hs |].
  exact (chat_answer_failure Sample.py_repr Sample.json_loads stream_down bot1 0%nat 2%nat
           3%nat model "ArxivTool" question [] [] VNone 0 true intent VNone "" question timeout
           Hs eq_refl eq_refl eq_refl).
Defined.

Lemma formatters_need_serialized_text_witness :
  truthy (VList shelf) = true
  /\ _generate_paper_cards Sample.py_repr Sample.json_loads (VList shelf) = Err TypeError
  /\ _prepare_message_for_llm Sample.py_repr Sample.json_loads question (VList shelf)
     = Err TypeError
  /\ _generate_paper_cards Sample.py_repr Sample.json_loads (VStr "[oops") = Err JSONDecodeError.
Proof.
  assert (Ht : truthy (VList shelf) = true) by reflexivity.
  destruct (proj1 (formatters_need_serialized_text Sample.py_repr Sample.json_loads question
                     (VList shelf) Ht)) as [H1 H2]; [discriminate |].
  destruct (proj2 (formatters_need_serialized_text Sample.py_repr Sample.json_loads question
                     (VStr "[oops") eq_refl) "[oops" JSONDecodeError eq_refl eq_refl)
    as [H3 _].
  repeat split; assumption.
Defined.

Lemma decoded_value_not_a_list_witness :
  Sample.json_loads (Sample.dumps no_link) = Ok no_link
  /\ _generate_paper_cards Sample.py_repr Sample.json_loads (VStr (Sample.dumps no_link))
     = Err TypeError
  /\ _prepare_message_for_llm Sample.py_repr Sample.json_loads question
       (VStr (Sample.dumps no_link)) = Err TypeError.
Proof.
  assert (Hl : Sample.json_loads (Sample.dumps no_link) = Ok no_link)
    by (vm_compute; reflexivity).
  split; [exact Hl |].
  exact (decoded_value_not_a_list Sample.py_repr Sample.json_loads question
           (Sample.dumps no_link) no_link eq_refl Hl).
Defined.

Lemma authors_text_is_split_witness :
  Sample.json_loads (Sample.dumps (VList [one_author])) = Ok (VList [one_author])
  /\ _prepare_message_for_llm Sample.py_repr Sample.json_loads question
       (VStr (Sample.dumps (VList [one_author])))
     = Ok (grounded_prompt
             ("题目：Graph Attention Networks" +:+ nl +:+ "作者：K, i, p, f" +:+ nl
                +:+ "摘要：Attention over graph neighbourhoods." +:+ nl +:+ nl)
             question).
Proof.
  assert (Hl : Sample.json_loads (Sample.dumps (VList [one_author])) = Ok (VList [one_author]))
    by (vm_compute; reflexivity).
  split; [exact Hl |].
  exact (proj2 (authors_text_is_split Sample.py_repr Sample.json_loads question
                  (Sample.dumps (VList [one_author])) _ _ _ _ _
                  eq_refl Hl eq_refl eq_refl eq_refl eq_refl)).
Defined.

Lemma authors_not_text_witness :
  let papers := VStr (Sample.dumps (VList [VDict [("title", VStr "T"); ("authors", VInt 3)]])) in
  _generate_paper_cards Sample.py_repr Sample.json_loads papers = Err TypeError
  /\ _prepare_message_for_llm Sample.py_repr Sample.json_loads question papers = Err TypeError.
Proof.
  refine (authors_not_text Sample.py_repr Sample.json_loads question
            (Sample.dumps (VList [VDict [("title", VStr "T"); ("authors", VInt 3)]]))
            [("title", VStr "T"); ("authors", VInt 3)] [] (VStr "T") (VInt 3) _ _ _ _ I);
    vm_compute; reflexivity.
Defined.

Lemma first_error_wins_witness :
  _generate_paper_cards Sample.py_repr Sample.json_loads
    (VStr (Sample.dumps (VList [no_summary]))) = Err (KeyError (VStr "summary"))
  /\ _generate_paper_cards Sample.py_repr Sample.json_loads
       (VStr (Sample.dumps (VList ([no_summary] ++ shelf)))) = Err (KeyError (VStr "summary")).
Proof.
  assert (H : _generate_paper_cards Sample.py_repr Sample.json_loads
                (VStr (Sample.dumps (VList [no_summary]))) = Err (KeyError (VStr "summary")))
    by (vm_compute; reflexivity).
  split; [exact H |].
  refine (proj1 (first_error_wins Sample.py_repr Sample.json_loads question
                   (Sample.dumps (VList [no_summary]))
                   (Sample.dumps (VList ([no_summary] ++ shelf)))
                   [no_summary] shelf (KeyError (VStr "summary")) _ _ _ _) H);
    vm_compute; reflexivity.
Defined.

Lemma cards_ignore_chat_history_witness :
  deterministic world
  /\ forall answer cards query,
       returned (run world (chat Sample.py_repr Sample.json_loads question
                              [("hi", "hello")] [] VNone 2 false) bot1 7%nat)
       = Ok (answer, cards, query) ->
       cards = card_container (cat (card_blocks records)) /\ query = intent.
Proof.
  assert (D : deterministic world) by (repeat split).
  split; [exact D |].
  intros answer cards query H.
  refine (cards_ignore_chat_history Sample.py_repr Sample.json_loads world bot1 0%nat 7%nat
            question [] [] [("hi", "hello")] VNone 2 true false
            _ _ _ answer cards query D _ H).
  vm_compute. reflexivity.
Defined.

End MoreInstances.
